(** * Power manager of the ESP32 edge gateway (edge/esp32/src/low_power_mode.cpp)

    A shallow embedding of the low-power state machine: the record kept in
    RTC memory and its additive checksum, the telemetry staging buffer, the
    mode transitions with their platform calls, and the idle/battery policy
    of [power_manager_process]. *)

From Stdlib Require Import ZArith List String Lia Bool.
From Stdlib Require Import Floats.SpecFloat.
From stdpp Require Import base list.

Local Open Scope Z_scope.

(** ** Machine integers

    [uint8_t] and [uint32_t] values are integers of [Z]; arithmetic that can
    leave the range is reduced explicitly. *)

Definition u8 (z : Z) : Z := z mod 2 ^ 8.
Definition u32 (z : Z) : Z := z mod 2 ^ 32.

Definition is_u8 (z : Z) : Prop := 0 <= z < 2 ^ 8.
Definition is_u32 (z : Z) : Prop := 0 <= z < 2 ^ 32.

(** ** Floating point

    [float] is IEEE-754 binary32 and [double] binary64 (the literals
    [4096.0], [3.3] and [2.0] of [read_battery_voltage] are doubles).  Both
    are carried by [spec_float]; comparisons are those of the standard, so
    every comparison with a NaN is false. *)

Module F32.
Definition prec : Z := 24.
Definition emax : Z := 128.
Definition ltb (x y : spec_float) : bool := SFltb x y.

(** Bit pattern of a binary32 value, as stored in memory. *)
Definition bits (f : spec_float) : Z :=
  match f with
  | S754_zero s => if s then 2 ^ 31 else 0
  | S754_infinity s => (if s then 2 ^ 31 else 0) + 255 * 2 ^ 23
  | S754_nan => 255 * 2 ^ 23 + 2 ^ 22
  | S754_finite s m e =>
      (if s then 2 ^ 31 else 0) +
      (if Z.pos m <? 2 ^ 23 then Z.pos m
       else (e + 150) * 2 ^ 23 + (Z.pos m - 2 ^ 23))
  end.
End F32.

Module F64.
Definition prec : Z := 53.
Definition emax : Z := 1024.
Definition mul : spec_float -> spec_float -> spec_float := SFmul prec emax.
Definition div : spec_float -> spec_float -> spec_float := SFdiv prec emax.
(** Conversion of a C [int] to [double] (exact for 32-bit integers). *)
Definition of_int (z : Z) : spec_float := binary_normalize prec emax z 0 false.
(** Narrowing conversion [double] to [float], round to nearest even. *)
Definition to_float (d : spec_float) : spec_float :=
  match d with
  | S754_finite s m e => binary_round F32.prec F32.emax s m e
  | _ => d
  end.
(** The double literals of the source. *)
Definition lit_4096_0 : spec_float := S754_finite false 4503599627370496 (-40).
Definition lit_3_3 : spec_float := S754_finite false 7430939385161318 (-51).
Definition lit_2_0 : spec_float := S754_finite false 4503599627370496 (-51).
Definition lit_3_0 : spec_float := S754_finite false 6755399441055744 (-51).
Definition lit_3_7 : spec_float := S754_finite false 8331659310635418 (-51).
End F64.

(** ** Enumerations *)

Inductive power_mode_t : Type :=
  | POWER_MODE_ACTIVE
  | POWER_MODE_MODEM_SLEEP
  | POWER_MODE_LIGHT_SLEEP
  | POWER_MODE_DEEP_SLEEP
  | POWER_MODE_HIBERNATION.

(** The enumerators' values. *)
Definition mode_code (m : power_mode_t) : Z :=
  match m with
  | POWER_MODE_ACTIVE => 0
  | POWER_MODE_MODEM_SLEEP => 1
  | POWER_MODE_LIGHT_SLEEP => 2
  | POWER_MODE_DEEP_SLEEP => 3
  | POWER_MODE_HIBERNATION => 4
  end.

Definition mode_eqb (a b : power_mode_t) : bool := mode_code a =? mode_code b.

#[global] Instance power_mode_eq_dec : EqDecision power_mode_t.
Proof. solve_decision. Defined.

(** Wake-up causes reported by the platform ([esp_sleep_get_wakeup_cause]). *)
Inductive esp_sleep_wakeup_cause_t : Type :=
  | ESP_SLEEP_WAKEUP_UNDEFINED
  | ESP_SLEEP_WAKEUP_ALL
  | ESP_SLEEP_WAKEUP_EXT0
  | ESP_SLEEP_WAKEUP_EXT1
  | ESP_SLEEP_WAKEUP_TIMER
  | ESP_SLEEP_WAKEUP_TOUCHPAD
  | ESP_SLEEP_WAKEUP_ULP
  | ESP_SLEEP_WAKEUP_GPIO
  | ESP_SLEEP_WAKEUP_UART
  | ESP_SLEEP_WAKEUP_WIFI
  | ESP_SLEEP_WAKEUP_COCPU
  | ESP_SLEEP_WAKEUP_COCPU_TRAP_TRIG
  | ESP_SLEEP_WAKEUP_BT.

Definition is_undefined (c : esp_sleep_wakeup_cause_t) : bool :=
  match c with ESP_SLEEP_WAKEUP_UNDEFINED => true | _ => false end.

Inductive wifi_ps_type_t : Type :=
  | WIFI_PS_NONE
  | WIFI_PS_MIN_MODEM
  | WIFI_PS_MAX_MODEM.

(** ** The record in RTC memory

    [rtc_state] survives deep sleep and may come back corrupted, so its
    fields hold what the memory holds: the enumeration and the flag as their
    stored integers, the voltage as its binary32 bit pattern, the two padding
    bytes before [checksum] as they are. *)

Module Rtc.
Record t : Type := mk {
  current_mode : Z;              (* offset 0,   4 bytes *)
  sleep_duration_ms : Z;         (* offset 4,   4 bytes *)
  wake_count : Z;                (* offset 8,   4 bytes *)
  last_active_time : Z;          (* offset 12,  4 bytes *)
  battery_voltage : Z;           (* offset 16,  4 bytes, binary32 bits *)
  critical_alert_pending : Z;    (* offset 20,  1 byte *)
  telemetry_buffer : list Z;     (* offset 21,  256 bytes *)
  buffer_index : Z;              (* offset 277, 1 byte *)
  padding : Z * Z;               (* offsets 278 and 279 *)
  checksum : Z                   (* offset 280, 4 bytes *)
}.

Definition BUFFER_SIZE : Z := 256.
Definition CHECKSUM_OFFSET : nat := 280.
Definition SIZE : nat := 284.

(** [memset(&rtc_state, 0, sizeof(rtc_state))] *)
Definition zero : t :=
  mk 0 0 0 0 0 0 (replicate 256 0) 0 (0, 0) 0.

Definition set_current_mode (v : Z) (r : t) : t :=
  mk v (sleep_duration_ms r) (wake_count r) (last_active_time r)
     (battery_voltage r) (critical_alert_pending r) (telemetry_buffer r)
     (buffer_index r) (padding r) (checksum r).
Definition set_wake_count (v : Z) (r : t) : t :=
  mk (current_mode r) (sleep_duration_ms r) v (last_active_time r)
     (battery_voltage r) (critical_alert_pending r) (telemetry_buffer r)
     (buffer_index r) (padding r) (checksum r).
Definition set_last_active_time (v : Z) (r : t) : t :=
  mk (current_mode r) (sleep_duration_ms r) (wake_count r) v
     (battery_voltage r) (critical_alert_pending r) (telemetry_buffer r)
     (buffer_index r) (padding r) (checksum r).
Definition set_battery_voltage (v : Z) (r : t) : t :=
  mk (current_mode r) (sleep_duration_ms r) (wake_count r)
     (last_active_time r) v (critical_alert_pending r)
     (telemetry_buffer r) (buffer_index r) (padding r) (checksum r).
Definition set_critical_alert_pending (v : Z) (r : t) : t :=
  mk (current_mode r) (sleep_duration_ms r) (wake_count r)
     (last_active_time r) (battery_voltage r) v (telemetry_buffer r)
     (buffer_index r) (padding r) (checksum r).
Definition set_telemetry_buffer (v : list Z) (r : t) : t :=
  mk (current_mode r) (sleep_duration_ms r) (wake_count r)
     (last_active_time r) (battery_voltage r) (critical_alert_pending r)
     v (buffer_index r) (padding r) (checksum r).
Definition set_buffer_index (v : Z) (r : t) : t :=
  mk (current_mode r) (sleep_duration_ms r) (wake_count r)
     (last_active_time r) (battery_voltage r) (critical_alert_pending r)
     (telemetry_buffer r) v (padding r) (checksum r).
Definition set_checksum (v : Z) (r : t) : t :=
  mk (current_mode r) (sleep_duration_ms r) (wake_count r)
     (last_active_time r) (battery_voltage r) (critical_alert_pending r)
     (telemetry_buffer r) (buffer_index r) (padding r) v.

(** Little-endian bytes of a 32-bit word. *)
Definition le32 (z : Z) : list Z :=
  [z mod 256; (z / 2 ^ 8) mod 256; (z / 2 ^ 16) mod 256; (z / 2 ^ 24) mod 256].

(** The bytes [(uint8_t* )&rtc_state] points to: the fields before
    [checksum], then [checksum] itself. *)
Definition payload (r : t) : list Z :=
  le32 (current_mode r) ++ le32 (sleep_duration_ms r) ++
  le32 (wake_count r) ++ le32 (last_active_time r) ++
  le32 (battery_voltage r) ++ [critical_alert_pending r] ++
  telemetry_buffer r ++ [buffer_index r] ++
  [fst (padding r); snd (padding r)].

Definition bytes (r : t) : list Z := payload r ++ le32 (checksum r).

(** What the memory can hold: every field within its width. *)
Record wf (r : t) : Prop := mk_wf {
  wf_current_mode : is_u32 (current_mode r);
  wf_sleep_duration_ms : is_u32 (sleep_duration_ms r);
  wf_wake_count : is_u32 (wake_count r);
  wf_last_active_time : is_u32 (last_active_time r);
  wf_battery_voltage : is_u32 (battery_voltage r);
  wf_critical_alert_pending : is_u8 (critical_alert_pending r);
  wf_telemetry_buffer_len : length (telemetry_buffer r) = 256%nat;
  wf_telemetry_buffer : Forall is_u8 (telemetry_buffer r);
  wf_buffer_index : is_u8 (buffer_index r);
  wf_padding : is_u8 (fst (padding r)) /\ is_u8 (snd (padding r));
  wf_checksum : is_u32 (checksum r)
}.

(** The same as a test that computes. *)
Definition byte_ok (z : Z) : bool := (0 <=? z) && (z <? 2 ^ 8).
Definition word_ok (z : Z) : bool := (0 <=? z) && (z <? 2 ^ 32).
Definition wfb (r : t) : bool :=
  word_ok (current_mode r) && word_ok (sleep_duration_ms r) &&
  word_ok (wake_count r) && word_ok (last_active_time r) &&
  word_ok (battery_voltage r) && byte_ok (critical_alert_pending r) &&
  (length (telemetry_buffer r) =? 256)%nat &&
  forallb byte_ok (telemetry_buffer r) && byte_ok (buffer_index r) &&
  byte_ok (fst (padding r)) && byte_ok (snd (padding r)) &&
  word_ok (checksum r).
End Rtc.

(** [calculate_checksum]: the loop [sum += ptr[i]] over the bytes before the
    [checksum] field, in [uint32_t] arithmetic. *)
Definition sum_bytes (bs : list Z) : Z :=
  fold_left (fun sum b => u32 (sum + b)) bs 0.

Definition checksum_of_image (image : list Z) : Z :=
  sum_bytes (take Rtc.CHECKSUM_OFFSET image).

Definition calculate_checksum (r : Rtc.t) : Z :=
  checksum_of_image (Rtc.bytes r).

(** ** Configuration *)

Record power_config_t : Type := mk_config {
  battery_critical_v : spec_float;
  battery_low_v : spec_float;
  battery_ok_v : spec_float;
  idle_timeout_ms : Z;
  deep_sleep_timeout_ms : Z;
  telemetry_interval_ms : Z;
  heartbeat_interval_ms : Z;
  wake_pin : Z;
  alert_pin : Z;
  enable_ulp : bool;
  enable_wifi_modem_sleep : bool;
  enable_auto_light_sleep : bool
}.

(** The static initializer of [config]; the thresholds are double literals
    narrowed to [float]. *)
Definition default_config : power_config_t := {|
  battery_critical_v := F64.to_float F64.lit_3_0;
  battery_low_v := F64.to_float F64.lit_3_3;
  battery_ok_v := F64.to_float F64.lit_3_7;
  idle_timeout_ms := 30000;
  deep_sleep_timeout_ms := 300000;
  telemetry_interval_ms := 60000;
  heartbeat_interval_ms := 300000;
  wake_pin := 33;
  alert_pin := 32;
  enable_ulp := true;
  enable_wifi_modem_sleep := true;
  enable_auto_light_sleep := true
|}.

(** ** The platform

    Calls into the ESP-IDF and Arduino layers are recorded, in order, in a
    trace.  The two suspend primitives also record the RTC record as it is
    when the processor stops. *)

Inductive hw_call : Type :=
  | Serial_printf (fmt : string)
  | Serial_println (msg : string)
  | Serial_flush
  | esp_pm_configure (max_freq_mhz min_freq_mhz : Z) (light_sleep_enable : bool)
  | adc_power_release
  | rtc_gpio_init (pin : Z)
  | rtc_gpio_set_direction_input_only (pin : Z)
  | rtc_gpio_pullup_en (pin : Z)
  | rtc_gpio_isolate (pin : Z)
  | ulp_process_macros_and_load (alert_pin : Z)
  | ulp_set_wakeup_period (period_index period_us : Z)
  | uart_driver_delete (port : Z)
  | uart_driver_install (port rx_buffer_size : Z)
  | gpio_set_direction_input (pin : Z)
  | gpio_pulldown_en (pin : Z)
  | esp_wifi_set_ps (ps : wifi_ps_type_t)
  | esp_wifi_stop
  | esp_bt_controller_disable
  | esp_sleep_enable_timer_wakeup (time_in_us : Z)
  | esp_sleep_enable_ext0_wakeup (pin level : Z)
  | esp_sleep_enable_ulp_wakeup
  | esp_sleep_disable_wakeup_source (source : esp_sleep_wakeup_cause_t)
  | adc1_config_width_bit_12
  | adc1_config_channel_atten_db_11
  | adc1_get_raw (raw : Z)
  | esp_light_sleep_start (retained : Rtc.t)
  | esp_deep_sleep_start (retained : Rtc.t).

(** What the platform answers: the millisecond clock, the ADC sample of the
    battery channel, the wake-up cause of this boot, how long the next light
    sleep lasts, and the pin tables of the chip. *)
Record hw_t : Type := mk_hw {
  millis_now : Z;
  adc_raw : Z;
  wakeup_cause : esp_sleep_wakeup_cause_t;
  light_sleep_ms : Z;
  GPIO_NUM_MAX : Z;
  rtc_gpio_is_valid_gpio : Z -> bool;
  trace : list hw_call
}.

(** ** Program state: the RTC record and the file's static variables *)

Record state : Type := mk_state {
  rtc_state : Rtc.t;
  config : power_config_t;
  current_mode : power_mode_t;
  last_activity_time : Z;
  initialized : bool;
  hw : hw_t
}.

Definition with_rtc_state (f : Rtc.t -> Rtc.t) (s : state) : state :=
  mk_state (f (rtc_state s)) (config s) (current_mode s)
           (last_activity_time s) (initialized s) (hw s).
Definition with_config (c : power_config_t) (s : state) : state :=
  mk_state (rtc_state s) c (current_mode s)
           (last_activity_time s) (initialized s) (hw s).
Definition with_current_mode (m : power_mode_t) (s : state) : state :=
  mk_state (rtc_state s) (config s) m
           (last_activity_time s) (initialized s) (hw s).
Definition with_last_activity_time (t : Z) (s : state) : state :=
  mk_state (rtc_state s) (config s) (current_mode s) t (initialized s) (hw s).
Definition with_initialized (b : bool) (s : state) : state :=
  mk_state (rtc_state s) (config s) (current_mode s)
           (last_activity_time s) b (hw s).
Definition with_hw (f : hw_t -> hw_t) (s : state) : state :=
  mk_state (rtc_state s) (config s) (current_mode s)
           (last_activity_time s) (initialized s) (f (hw s)).

Definition log (e : hw_call) (h : hw_t) : hw_t :=
  mk_hw (millis_now h) (adc_raw h) (wakeup_cause h) (light_sleep_ms h)
        (GPIO_NUM_MAX h) (rtc_gpio_is_valid_gpio h) (trace h ++ [e]).
Definition advance_clock (ms : Z) (h : hw_t) : hw_t :=
  mk_hw (u32 (millis_now h + ms)) (adc_raw h) (wakeup_cause h)
        (light_sleep_ms h) (GPIO_NUM_MAX h) (rtc_gpio_is_valid_gpio h)
        (trace h).

(** The statics as the C runtime sets them up at every boot; the RTC record
    and the platform are whatever they are. *)
Definition boot (r : Rtc.t) (h : hw_t) : state :=
  mk_state r default_config POWER_MODE_ACTIVE 0 false h.

(** ** Computations

    A call either returns to its caller or ends in [esp_deep_sleep_start],
    which does not return: the processor is suspended and everything after
    the call is skipped. *)

Inductive outcome (A : Type) : Type :=
  | Returned (a : A) (s : state)
  | Suspended (s : state).
Arguments Returned {A} a s.
Arguments Suspended {A} s.

Definition M (A : Type) : Type := state -> outcome A.

#[global] Instance M_ret : MRet M := fun A a s => Returned a s.
#[global] Instance M_bind : MBind M := fun A B f m s =>
  match m s with
  | Returned a s' => f a s'
  | Suspended s' => Suspended s'
  end.

Definition gets {A : Type} (f : state -> A) : M A := fun s => Returned (f s) s.
Definition modify (f : state -> state) : M unit := fun s => Returned tt (f s).
Definition call (e : hw_call) : M unit := modify (with_hw (log e)).
Definition skip : M unit := mret tt.

Fixpoint for_each {A : Type} (l : list A) (body : A -> M unit) : M unit :=
  match l with
  | [] => skip
  | x :: l' => body x;; for_each l' body
  end.

(** The final state of a call, however it ended. *)
Definition final {A : Type} (o : outcome A) : state :=
  match o with Returned _ s => s | Suspended s => s end.

(** *** Platform primitives *)

Definition millis : M Z := gets (fun s => millis_now (hw s)).

Definition esp_sleep_get_wakeup_cause : M esp_sleep_wakeup_cause_t :=
  gets (fun s => wakeup_cause (hw s)).

Definition do_adc1_get_raw : M Z :=
  raw ← gets (fun s => adc_raw (hw s));
  call (adc1_get_raw raw);;
  mret raw.

(** Light sleep suspends the processor and resumes after a wake source
    fires; the clock has moved on meanwhile. *)
Definition do_esp_light_sleep_start : M unit :=
  r ← gets rtc_state;
  call (esp_light_sleep_start r);;
  modify (fun s => with_hw (advance_clock (light_sleep_ms (hw s))) s).

(** Deep sleep suspends the processor for good; execution restarts from
    the reset vector on the next wake. *)
Definition do_esp_deep_sleep_start {A : Type} : M A :=
  fun s => Suspended (with_hw (log (esp_deep_sleep_start (rtc_state s))) s).

(** *** Private functions *)

Definition modify_rtc (f : Rtc.t -> Rtc.t) : M unit := modify (with_rtc_state f).

Definition unused_pins : list Z := [0; 2; 4; 12; 13; 14; 15; 25; 26; 27].

Definition configure_gpio_for_sleep : M unit :=
  call (uart_driver_delete 0);;
  for_each unused_pins (fun pin =>
    call (gpio_set_direction_input pin);;
    call (gpio_pulldown_en pin)).

Definition restore_gpio_after_wake : M unit :=
  call (uart_driver_install 0 256).

Definition configure_ulp_program : M unit :=
  cfg ← gets config;
  call (ulp_process_macros_and_load (alert_pin cfg));;
  call (ulp_set_wakeup_period 0 100000).

(** [(raw / 4096.0) * 3.3 * 2.0], computed in double and narrowed to float. *)
Definition adc_to_voltage (raw : Z) : spec_float :=
  F64.to_float
    (F64.mul (F64.mul (F64.div (F64.of_int raw) F64.lit_4096_0) F64.lit_3_3)
             F64.lit_2_0).

Definition read_battery_voltage : M spec_float :=
  call adc1_config_width_bit_12;;
  call adc1_config_channel_atten_db_11;;
  raw ← do_adc1_get_raw;
  mret (adc_to_voltage raw).

Definition send_minimal_telemetry : M unit :=
  call (Serial_printf "[PWR] Sending pre-sleep telemetry: battery=%.2fV, mode=%d");;
  call Serial_flush.

(** *** Public functions *)

Definition power_manager_init (user_config : option power_config_t) : M unit :=
  match user_config with
  | Some c => modify (with_config c)
  | None => skip
  end;;
  wakeup_reason ← esp_sleep_get_wakeup_cause;
  (if negb (is_undefined wakeup_reason) then
     r ← gets rtc_state;
     if calculate_checksum r =? Rtc.checksum r then
       modify_rtc (fun r => Rtc.set_wake_count (u32 (Rtc.wake_count r + 1)) r);;
       call (Serial_printf "[PWR] Woke up (count: %lu, reason: %d)")
     else
       modify_rtc (fun _ => Rtc.zero);;
       call (Serial_println "[PWR] RTC state corrupted, reset")
   else
     modify_rtc (fun _ => Rtc.zero);;
     call (Serial_println "[PWR] Fresh boot, initializing power manager"));;
  cfg ← gets config;
  call (esp_pm_configure 240 80 (enable_auto_light_sleep cfg));;
  call adc_power_release;;
  call (rtc_gpio_init (wake_pin cfg));;
  call (rtc_gpio_set_direction_input_only (wake_pin cfg));;
  call (rtc_gpio_pullup_en (wake_pin cfg));;
  (if enable_ulp cfg then configure_ulp_program else skip);;
  now ← millis;
  modify (with_last_activity_time now);;
  modify (with_initialized true);;
  call (Serial_println "[PWR] Power manager initialized").

(** The entry actions of each mode: the [switch] of [power_manager_set_mode]. *)
Definition entry_actions (mode : power_mode_t) : M unit :=
  cfg ← gets config;
  match mode with
  | POWER_MODE_ACTIVE =>
      restore_gpio_after_wake;;
      if enable_wifi_modem_sleep cfg then call (esp_wifi_set_ps WIFI_PS_NONE)
      else skip
  | POWER_MODE_MODEM_SLEEP =>
      call (esp_wifi_set_ps WIFI_PS_MIN_MODEM)
  | POWER_MODE_LIGHT_SLEEP =>
      configure_gpio_for_sleep;;
      call (esp_wifi_set_ps WIFI_PS_MAX_MODEM);;
      call (esp_sleep_enable_timer_wakeup (u32 (telemetry_interval_ms cfg * 1000)));;
      call (esp_sleep_enable_ext0_wakeup (wake_pin cfg) 0);;
      do_esp_light_sleep_start;;
      restore_gpio_after_wake;;
      now ← millis;
      modify (with_last_activity_time now)
  | POWER_MODE_DEEP_SLEEP =>
      modify_rtc (Rtc.set_current_mode (mode_code mode));;
      now ← millis;
      modify_rtc (Rtc.set_last_active_time now);;
      v ← read_battery_voltage;
      modify_rtc (Rtc.set_battery_voltage (F32.bits v));;
      modify_rtc (fun r => Rtc.set_checksum (calculate_checksum r) r);;
      send_minimal_telemetry;;
      configure_gpio_for_sleep;;
      call esp_wifi_stop;;
      call esp_bt_controller_disable;;
      call (esp_sleep_enable_timer_wakeup (u32 (heartbeat_interval_ms cfg * 1000)));;
      call (esp_sleep_enable_ext0_wakeup (wake_pin cfg) 0);;
      (if enable_ulp cfg then call esp_sleep_enable_ulp_wakeup else skip);;
      call (Serial_println "[PWR] Entering deep sleep...");;
      call Serial_flush;;
      do_esp_deep_sleep_start
  | POWER_MODE_HIBERNATION =>
      modify_rtc (Rtc.set_current_mode (mode_code mode));;
      modify_rtc (fun r => Rtc.set_checksum (calculate_checksum r) r);;
      call (esp_sleep_disable_wakeup_source ESP_SLEEP_WAKEUP_ALL);;
      call (esp_sleep_enable_timer_wakeup
              (u32 (u32 (heartbeat_interval_ms cfg * 1000) * 10)));;
      call (esp_sleep_enable_ext0_wakeup (wake_pin cfg) 0);;
      gpio_num_max ← gets (fun s => GPIO_NUM_MAX (hw s));
      is_valid ← gets (fun s => rtc_gpio_is_valid_gpio (hw s));
      for_each (seqZ 0 gpio_num_max) (fun i =>
        if negb (i =? wake_pin cfg) && is_valid i
        then call (rtc_gpio_isolate i) else skip);;
      call (Serial_println "[PWR] Entering hibernation...");;
      call Serial_flush;;
      do_esp_deep_sleep_start
  end.

Definition power_manager_set_mode (mode : power_mode_t) : M bool :=
  cur ← gets current_mode;
  if mode_eqb mode cur then mret true
  else
    call (Serial_printf "[PWR] Transitioning from mode %d to %d");;
    entry_actions mode;;
    modify (with_current_mode mode);;
    mret true.

Definition power_manager_get_mode : M power_mode_t := gets current_mode.

Definition power_manager_activity : M unit :=
  now ← millis;
  modify (with_last_activity_time now);;
  cur ← gets current_mode;
  if negb (mode_eqb cur POWER_MODE_ACTIVE)
  then power_manager_set_mode POWER_MODE_ACTIVE;; skip
  else skip.

(** [memcpy(&dst[pos], src, n)]: [n] bytes of [src] written from index [pos]
    on. *)
Fixpoint memcpy (dst : list Z) (pos : nat) (src : list Z) (n : nat) : list Z :=
  match n, src with
  | S n', b :: src' => memcpy (<[pos := b]> dst) (S pos) src' n'
  | _, _ => dst
  end.

Definition power_manager_buffer_telemetry (data : list Z) (len : Z) : M bool :=
  r ← gets rtc_state;
  if Rtc.buffer_index r + len >=? Rtc.BUFFER_SIZE then mret false
  else
    modify_rtc (fun r =>
      Rtc.set_telemetry_buffer
        (memcpy (Rtc.telemetry_buffer r) (Z.to_nat (Rtc.buffer_index r))
                data (Z.to_nat len)) r);;
    modify_rtc (fun r => Rtc.set_buffer_index (u8 (Rtc.buffer_index r + len)) r);;
    mret true.

(** Returns the number of bytes copied and the caller's buffer afterwards. *)
Definition power_manager_get_buffered_telemetry (buffer : list Z) (max_len : Z)
  : M (Z * list Z) :=
  r ← gets rtc_state;
  let len := Z.min (Rtc.buffer_index r) max_len in
  mret (len, memcpy buffer 0 (Rtc.telemetry_buffer r) (Z.to_nat len)).

Definition power_manager_clear_buffer : M unit :=
  modify_rtc (Rtc.set_buffer_index 0);;
  modify_rtc (Rtc.set_telemetry_buffer (replicate 256 0)).

Definition power_manager_set_alert (alert : bool) : M unit :=
  modify_rtc (Rtc.set_critical_alert_pending (Z.b2z alert));;
  cur ← gets current_mode;
  if alert && (mode_code cur >=? mode_code POWER_MODE_LIGHT_SLEEP)
  then power_manager_set_mode POWER_MODE_ACTIVE;; skip
  else skip.

Definition power_manager_has_alert : M bool :=
  r ← gets rtc_state;
  mret (negb (Rtc.critical_alert_pending r =? 0)).

Definition power_manager_process : M unit :=
  init ← gets initialized;
  if negb init then skip
  else
    now ← millis;
    last ← gets last_activity_time;
    let idle_time := u32 (now - last) in
    battery_v ← read_battery_voltage;
    cfg ← gets config;
    if F32.ltb battery_v (battery_critical_v cfg) then
      call (Serial_printf "[PWR] Critical battery: %.2fV, hibernating!");;
      power_manager_set_mode POWER_MODE_HIBERNATION;;
      skip
    else if F32.ltb battery_v (battery_low_v cfg)
            && (idle_time >? idle_timeout_ms cfg / 2) then
      power_manager_set_mode POWER_MODE_DEEP_SLEEP;;
      skip
    else
      cur ← gets current_mode;
      if mode_eqb cur POWER_MODE_ACTIVE then
        if idle_time >? deep_sleep_timeout_ms cfg then
          power_manager_set_mode POWER_MODE_DEEP_SLEEP;; skip
        else if idle_time >? idle_timeout_ms cfg then
          power_manager_set_mode POWER_MODE_LIGHT_SLEEP;; skip
        else if idle_time >? idle_timeout_ms cfg / 2 then
          power_manager_set_mode POWER_MODE_MODEM_SLEEP;; skip
        else skip
      else skip.

Definition power_manager_get_wake_reason : M string :=
  cause ← esp_sleep_get_wakeup_cause;
  mret (match cause with
        | ESP_SLEEP_WAKEUP_TIMER => "timer"
        | ESP_SLEEP_WAKEUP_EXT0 => "ext0_pin"
        | ESP_SLEEP_WAKEUP_EXT1 => "ext1_pins"
        | ESP_SLEEP_WAKEUP_TOUCHPAD => "touchpad"
        | ESP_SLEEP_WAKEUP_ULP => "ulp"
        | ESP_SLEEP_WAKEUP_GPIO => "gpio"
        | _ => "power_on"
        end)%string.

Definition power_mode_to_string (mode : power_mode_t) : string :=
  match mode with
  | POWER_MODE_ACTIVE => "ACTIVE"
  | POWER_MODE_MODEM_SLEEP => "MODEM_SLEEP"
  | POWER_MODE_LIGHT_SLEEP => "LIGHT_SLEEP"
  | POWER_MODE_DEEP_SLEEP => "DEEP_SLEEP"
  | POWER_MODE_HIBERNATION => "HIBERNATION"
  end.

(** *** Diagnostics *)

(** What [power_manager_get_stats] stores through its four pointers; a
    [NULL] pointer receives nothing. *)
Record stats_t : Type := mk_stats {
  stats_wake_count : option Z;
  stats_battery_v : option spec_float;
  stats_uptime_ms : option Z;
  stats_mode : option power_mode_t
}.

(** The arguments say which of the pointers are not [NULL]. *)
Definition power_manager_get_stats (wake_count battery_v uptime_ms mode : bool)
  : M stats_t :=
  wc ← (if wake_count
        then r ← gets rtc_state; mret (Some (Rtc.wake_count r))
        else mret None);
  bv ← (if battery_v
        then v ← read_battery_voltage; mret (Some v)
        else mret None);
  up ← (if uptime_ms then t ← millis; mret (Some t) else mret None);
  md ← (if mode then m ← gets current_mode; mret (Some m) else mret None);
  mret (mk_stats wc bv up md).

(** The double literals [240.0], [20.0], [0.8], [0.01] and [0.005]. *)
Definition lit_240_0 : spec_float := S754_finite false 8444249301319680 (-45).
Definition lit_20_0 : spec_float := S754_finite false 5629499534213120 (-48).
Definition lit_0_8 : spec_float := S754_finite false 7205759403792794 (-53).
Definition lit_0_01 : spec_float := S754_finite false 5764607523034235 (-59).
Definition lit_0_005 : spec_float := S754_finite false 5764607523034235 (-60).

Definition power_manager_estimate_current_ma : M spec_float :=
  cur ← gets current_mode;
  mret (F64.to_float
          match cur with
          | POWER_MODE_ACTIVE => lit_240_0
          | POWER_MODE_MODEM_SLEEP => lit_20_0
          | POWER_MODE_LIGHT_SLEEP => lit_0_8
          | POWER_MODE_DEEP_SLEEP => lit_0_01
          | POWER_MODE_HIBERNATION => lit_0_005
          end).

(** ** Vocabulary of the specification *)

(** The platform calls [tr] appended to the trace of [s], nothing else
    touched. *)
Definition traced (tr : list hw_call) (s : state) : state :=
  with_hw (fun h =>
    mk_hw (millis_now h) (adc_raw h) (wakeup_cause h) (light_sleep_ms h)
          (GPIO_NUM_MAX h) (rtc_gpio_is_valid_gpio h) (trace h ++ tr)) s.

(** A computation that only makes the platform calls [tr]. *)
Definition emits (m : M unit) (tr : list hw_call) : Prop :=
  forall s, m s = Returned tt (traced tr s).

(** The statement [rtc_state.checksum = calculate_checksum()], which the
    specification calls [commit()], and the records it leaves valid. *)
Definition commit (r : Rtc.t) : Rtc.t :=
  Rtc.set_checksum (calculate_checksum r) r.

Definition committed (r : Rtc.t) : Prop :=
  Rtc.checksum r = calculate_checksum r.

(** The persistence step of the [POWER_MODE_DEEP_SLEEP] case: mode, time of
    entry and battery voltage are stored, then the checksum. *)
Definition persist_for_sleep (mode : power_mode_t) (now : Z) (v : spec_float)
    (r : Rtc.t) : Rtc.t :=
  commit (Rtc.set_battery_voltage (F32.bits v)
            (Rtc.set_last_active_time now
               (Rtc.set_current_mode (mode_code mode) r))).

(** Sum of a list of bytes, without reduction. *)
Definition sumZ (l : list Z) : Z := foldr Z.add 0 l.

(** The rule table of [process()] as the specification lists it: guards in
    priority order, each with its target mode; the first guard that holds
    decides. *)
Definition policy_rules (cfg : power_config_t) (current : power_mode_t)
    (battery_voltage : spec_float) (idle_time : Z)
  : list (bool * power_mode_t) :=
  [ (F32.ltb battery_voltage (battery_critical_v cfg),
     POWER_MODE_HIBERNATION);
    (F32.ltb battery_voltage (battery_low_v cfg)
       && (idle_time >? idle_timeout_ms cfg / 2),
     POWER_MODE_DEEP_SLEEP);
    (bool_decide (current = POWER_MODE_ACTIVE)
       && (idle_time >? deep_sleep_timeout_ms cfg),
     POWER_MODE_DEEP_SLEEP);
    (bool_decide (current = POWER_MODE_ACTIVE)
       && (idle_time >? idle_timeout_ms cfg),
     POWER_MODE_LIGHT_SLEEP);
    (bool_decide (current = POWER_MODE_ACTIVE)
       && (idle_time >? idle_timeout_ms cfg / 2),
     POWER_MODE_MODEM_SLEEP) ].

Fixpoint first_match (rules : list (bool * power_mode_t)) : option power_mode_t :=
  match rules with
  | [] => None
  | (guard, target) :: rest => if guard then Some target else first_match rest
  end.

(** Platform calls of the individual entry actions. *)
Definition gpio_sleep_trace : list hw_call :=
  uart_driver_delete 0 ::
  concat ((fun pin => [gpio_set_direction_input pin; gpio_pulldown_en pin])
            <$> unused_pins).

Definition isolate_trace (cfg : power_config_t) (h : hw_t) : list hw_call :=
  concat ((fun i =>
             if negb (i =? wake_pin cfg) && rtc_gpio_is_valid_gpio h i
             then [rtc_gpio_isolate i] else [])
            <$> seqZ 0 (GPIO_NUM_MAX h)).

Definition battery_trace (h : hw_t) : list hw_call :=
  [adc1_config_width_bit_12; adc1_config_channel_atten_db_11;
   adc1_get_raw (adc_raw h)].

Definition light_sleep_prelude (cfg : power_config_t) : list hw_call :=
  gpio_sleep_trace ++
  [esp_wifi_set_ps WIFI_PS_MAX_MODEM;
   esp_sleep_enable_timer_wakeup (u32 (telemetry_interval_ms cfg * 1000));
   esp_sleep_enable_ext0_wakeup (wake_pin cfg) 0].

Definition deep_sleep_trace (cfg : power_config_t) (h : hw_t) : list hw_call :=
  battery_trace h ++
  [Serial_printf "[PWR] Sending pre-sleep telemetry: battery=%.2fV, mode=%d";
   Serial_flush] ++
  gpio_sleep_trace ++
  [esp_wifi_stop; esp_bt_controller_disable;
   esp_sleep_enable_timer_wakeup (u32 (heartbeat_interval_ms cfg * 1000));
   esp_sleep_enable_ext0_wakeup (wake_pin cfg) 0] ++
  (if enable_ulp cfg then [esp_sleep_enable_ulp_wakeup] else []) ++
  [Serial_println "[PWR] Entering deep sleep..."; Serial_flush].

Definition hibernation_trace (cfg : power_config_t) (h : hw_t) : list hw_call :=
  [esp_sleep_disable_wakeup_source ESP_SLEEP_WAKEUP_ALL;
   esp_sleep_enable_timer_wakeup
     (u32 (u32 (heartbeat_interval_ms cfg * 1000) * 10));
   esp_sleep_enable_ext0_wakeup (wake_pin cfg) 0] ++
  isolate_trace cfg h ++
  [Serial_println "[PWR] Entering hibernation..."; Serial_flush].

Definition transition_msg : hw_call :=
  Serial_printf "[PWR] Transitioning from mode %d to %d".

(** A caller that appends the chunks in order, whatever each call
    returns. *)
Definition append_all (chunks : list (list Z)) : M unit :=
  for_each chunks (fun d =>
    power_manager_buffer_telemetry d (Z.of_nat (length d));; skip).

(** The bytes such a caller gets into a buffer whose cursor is at [c]: a
    chunk that would reach the capacity is dropped whole, later chunks are
    still tried. *)
Fixpoint accepted (chunks : list (list Z)) (c : Z) : list Z :=
  match chunks with
  | [] => []
  | d :: rest =>
      if 256 <=? c + Z.of_nat (length d) then accepted rest c
      else d ++ accepted rest (c + Z.of_nat (length d))
  end.

(** The record after a validated wake. *)
Definition counted_wake (r : Rtc.t) : Rtc.t :=
  Rtc.set_wake_count (u32 (Rtc.wake_count r + 1)) r.

(** The record [init] leaves, by wake-up cause and stored record. *)
Definition init_record (cause : esp_sleep_wakeup_cause_t) (r : Rtc.t) : Rtc.t :=
  if is_undefined cause then Rtc.zero
  else if calculate_checksum r =? Rtc.checksum r then counted_wake r
  else Rtc.zero.

(** The platform calls of [init] under configuration [cfg]. *)
Definition init_trace (cause : esp_sleep_wakeup_cause_t) (r : Rtc.t)
    (cfg : power_config_t) : list hw_call :=
  [if is_undefined cause
   then Serial_println "[PWR] Fresh boot, initializing power manager"
   else if calculate_checksum r =? Rtc.checksum r
        then Serial_printf "[PWR] Woke up (count: %lu, reason: %d)"
        else Serial_println "[PWR] RTC state corrupted, reset";
   esp_pm_configure 240 80 (enable_auto_light_sleep cfg);
   adc_power_release;
   rtc_gpio_init (wake_pin cfg);
   rtc_gpio_set_direction_input_only (wake_pin cfg);
   rtc_gpio_pullup_en (wake_pin cfg)] ++
  (if enable_ulp cfg
   then [ulp_process_macros_and_load (alert_pin cfg);
         ulp_set_wakeup_period 0 100000]
   else []) ++
  [Serial_println "[PWR] Power manager initialized"].

(** The calls that program or clear a wake source. *)
Definition is_wake_source_call (e : hw_call) : bool :=
  match e with
  | esp_sleep_enable_timer_wakeup _ | esp_sleep_enable_ext0_wakeup _ _
  | esp_sleep_enable_ulp_wakeup | esp_sleep_disable_wakeup_source _ => true
  | _ => false
  end.

(** The calls made by a computation: the trace it leaves, less the trace it
    started with. *)
Definition calls_of {A : Type} (m : M A) (s : state) : list hw_call :=
  drop (length (trace (hw s))) (trace (hw (final (m s)))).

(** What a battery reading must satisfy under the default thresholds:
    below critical up to ADC 1861, below low up to ADC 2047, and never
    above the next reading. *)
Definition adc_reading_ok (raw : Z) : bool :=
  Bool.eqb (F32.ltb (adc_to_voltage raw) (battery_critical_v default_config))
           (raw <=? 1861) &&
  Bool.eqb (F32.ltb (adc_to_voltage raw) (battery_low_v default_config))
           (raw <=? 2047) &&
  SFleb (adc_to_voltage raw) (adc_to_voltage (raw + 1)).

(** The wake sources each mode's entry programs, in order. *)
Definition wake_source_calls (cfg : power_config_t) (mode : power_mode_t)
  : list hw_call :=
  match mode with
  | POWER_MODE_ACTIVE | POWER_MODE_MODEM_SLEEP => []
  | POWER_MODE_LIGHT_SLEEP =>
      [esp_sleep_enable_timer_wakeup (u32 (telemetry_interval_ms cfg * 1000));
       esp_sleep_enable_ext0_wakeup (wake_pin cfg) 0]
  | POWER_MODE_DEEP_SLEEP =>
      [esp_sleep_enable_timer_wakeup (u32 (heartbeat_interval_ms cfg * 1000));
       esp_sleep_enable_ext0_wakeup (wake_pin cfg) 0] ++
      (if enable_ulp cfg then [esp_sleep_enable_ulp_wakeup] else [])
  | POWER_MODE_HIBERNATION =>
      [esp_sleep_disable_wakeup_source ESP_SLEEP_WAKEUP_ALL;
       esp_sleep_enable_timer_wakeup
         (u32 (u32 (heartbeat_interval_ms cfg * 1000) * 10));
       esp_sleep_enable_ext0_wakeup (wake_pin cfg) 0]
  end.

(** The fields of the record that only [init], the buffer functions and
    [setAlert] write. *)
Definition same_payload_fields (r r' : Rtc.t) : Prop :=
  Rtc.sleep_duration_ms r' = Rtc.sleep_duration_ms r /\
  Rtc.wake_count r' = Rtc.wake_count r /\
  Rtc.telemetry_buffer r' = Rtc.telemetry_buffer r /\
  Rtc.buffer_index r' = Rtc.buffer_index r /\
  Rtc.padding r' = Rtc.padding r.

(** ** Concrete machines used in the examples *)

(** The low-power-capable pins of the ESP32. *)
Definition esp32_rtc_pins : list Z :=
  [0; 2; 4; 12; 13; 14; 15; 25; 26; 27; 32; 33; 34; 35; 36; 37; 38; 39].

(** A cold boot at 1 s uptime with the battery at 3.7 V (ADC 2297). *)
Definition hw_cold : hw_t :=
  mk_hw 1000 2297 ESP_SLEEP_WAKEUP_UNDEFINED 60000 40
        (fun i => bool_decide (i ∈ esp32_rtc_pins)) [].

(** A timer wake with the battery at 2.9 V (ADC 1800). *)
Definition hw_timer_wake : hw_t :=
  mk_hw 1000 1800 ESP_SLEEP_WAKEUP_TIMER 60000 40
        (fun i => bool_decide (i ∈ esp32_rtc_pins)) [].

(** A record with three wakes and five buffered bytes, committed. *)
Definition rtc_sample : Rtc.t :=
  commit (Rtc.mk 3 0 3 420000 1079194419 0
                 ([1; 2; 3; 4; 5] ++ replicate 251 0) 5 (0, 0) 0).

(** The same record with one telemetry byte flipped in RTC memory. *)
Definition rtc_corrupted : Rtc.t :=
  Rtc.set_telemetry_buffer ([1; 2; 7; 4; 5] ++ replicate 251 0) rtc_sample.

(** The machine after [init] on a cold boot. *)
Definition s_ready : state :=
  final (power_manager_init None (boot Rtc.zero hw_cold)).

(** The machine after [init] on a timer wake with a valid record; the
    battery is critical. *)
Definition s_woken : state :=
  final (power_manager_init None (boot rtc_sample hw_timer_wake)).

(** [s_woken] after more than five idle minutes. *)
Definition s_idle_critical : state :=
  with_hw (advance_clock 360000) s_woken.

(** [s_ready] after thirty-five idle seconds. *)
Definition s_idle_35s : state :=
  with_hw (advance_clock 35000) s_ready.

(** * Properties *)

(** ** States, traces and quiet computations *)

Lemma hw_ext (h1 h2 : hw_t) :
  millis_now h1 = millis_now h2 -> adc_raw h1 = adc_raw h2 ->
  wakeup_cause h1 = wakeup_cause h2 -> light_sleep_ms h1 = light_sleep_ms h2 ->
  GPIO_NUM_MAX h1 = GPIO_NUM_MAX h2 ->
  rtc_gpio_is_valid_gpio h1 = rtc_gpio_is_valid_gpio h2 ->
  trace h1 = trace h2 -> h1 = h2.
Proof. destruct h1, h2; simpl; congruence. Qed.

Lemma state_ext (s1 s2 : state) :
  rtc_state s1 = rtc_state s2 -> config s1 = config s2 ->
  current_mode s1 = current_mode s2 ->
  last_activity_time s1 = last_activity_time s2 ->
  initialized s1 = initialized s2 -> hw s1 = hw s2 -> s1 = s2.
Proof. destruct s1, s2; simpl; congruence. Qed.

(** Evaluates projections of updated states. *)
Ltac proj :=
  cbn -[seqZ for_each commit calculate_checksum u32 u8 adc_to_voltage
        F32.bits F32.ltb memcpy replicate Z.add Z.mul Z.div Z.sub
        persist_for_sleep app concat fmap mode_eqb mode_code Z.b2z].

(** Closes an equation between two spellings of the same state. *)
Ltac same_state :=
  apply state_ext; [| | | | |apply hw_ext]; proj;
  rewrite <- ?app_assoc; reflexivity.

(** Runs straight-line monadic code. *)
Ltac run :=
  unfold mbind, M_bind, mret, M_ret, skip, gets, modify_rtc, call, modify;
  proj.

Lemma traced_nil (s : state) : traced [] s = s.
Proof.
  apply state_ext; [| | | | |apply hw_ext]; proj; try reflexivity.
  apply app_nil_r.
Qed.

Lemma traced_app (tr1 tr2 : list hw_call) (s : state) :
  traced tr2 (traced tr1 s) = traced (tr1 ++ tr2) s.
Proof. same_state. Qed.

Lemma with_current_mode_id (s : state) : with_current_mode (current_mode s) s = s.
Proof. by destruct s. Qed.

Lemma emits_skip : emits skip [].
Proof. intros s. unfold skip, mret, M_ret. by rewrite traced_nil. Qed.

Lemma emits_call (e : hw_call) : emits (call e) [e].
Proof. intros s. reflexivity. Qed.

Lemma emits_bind (m k : M unit) (tr1 tr2 : list hw_call) :
  emits m tr1 -> emits k tr2 -> emits (m;; k) (tr1 ++ tr2).
Proof.
  intros Hm Hk s. unfold mbind, M_bind. rewrite Hm, Hk. by rewrite traced_app.
Qed.

Lemma emits_for_each {A : Type} (l : list A) (body : A -> M unit)
    (trf : A -> list hw_call) :
  (forall x, emits (body x) (trf x)) ->
  emits (for_each l body) (concat (trf <$> l)).
Proof.
  intros Hb. induction l as [|x l IH]; simpl.
  - apply emits_skip.
  - by apply emits_bind.
Qed.

Create HintDb pm.
#[local] Hint Resolve emits_skip emits_call emits_bind : pm.

Lemma emits_configure_gpio_for_sleep : emits configure_gpio_for_sleep gpio_sleep_trace.
Proof.
  unfold configure_gpio_for_sleep, gpio_sleep_trace.
  apply (emits_bind _ _ [_]); [apply emits_call|].
  apply emits_for_each. intros pin.
  apply (emits_bind _ _ [_] [_]); apply emits_call.
Qed.

Lemma emits_restore_gpio_after_wake :
  emits restore_gpio_after_wake [uart_driver_install 0 256].
Proof. intros s. reflexivity. Qed.

(** Steps of a run. *)
Lemma bind_emits {B : Type} (m : M unit) (tr : list hw_call) (k : unit -> M B)
    (s : state) :
  emits m tr -> (m ≫= k) s = k tt (traced tr s).
Proof. intros H. unfold mbind, M_bind. by rewrite H. Qed.

Lemma bind_call {B : Type} (e : hw_call) (k : unit -> M B) (s : state) :
  (call e ≫= k) s = k tt (traced [e] s).
Proof. reflexivity. Qed.

Lemma bind_gets {A B : Type} (f : state -> A) (k : A -> M B) (s : state) :
  (gets f ≫= k) s = k (f s) s.
Proof. reflexivity. Qed.

Lemma bind_modify {B : Type} (f : state -> state) (k : unit -> M B) (s : state) :
  (modify f ≫= k) s = k tt (f s).
Proof. reflexivity. Qed.

Lemma bind_modify_rtc {B : Type} (f : Rtc.t -> Rtc.t) (k : unit -> M B)
    (s : state) :
  (modify_rtc f ≫= k) s = k tt (with_rtc_state f s).
Proof. reflexivity. Qed.

Lemma bind_bind {A B C : Type} (m : M A) (f : A -> M B) (g : B -> M C)
    (s : state) :
  ((m ≫= f) ≫= g) s = (m ≫= fun x => f x ≫= g) s.
Proof. unfold mbind, M_bind. by destruct (m s). Qed.

Lemma bind_ret {A B : Type} (a : A) (k : A -> M B) (s : state) :
  (mret a ≫= k) s = k a s.
Proof. reflexivity. Qed.

Lemma bind_skip {B : Type} (k : unit -> M B) (s : state) :
  (skip ≫= k) s = k tt s.
Proof. reflexivity. Qed.

Lemma read_battery_voltage_run (s : state) :
  read_battery_voltage s =
  Returned (adc_to_voltage (adc_raw (hw s))) (traced (battery_trace (hw s)) s).
Proof.
  unfold read_battery_voltage, do_adc1_get_raw.
  rewrite !bind_call, bind_bind, bind_gets, bind_bind, bind_call, bind_ret.
  unfold mret, M_ret. proj. f_equal. same_state.
Qed.

Lemma bind_read_battery_voltage {B : Type} (k : spec_float -> M B) (s : state) :
  (read_battery_voltage ≫= k) s =
  k (adc_to_voltage (adc_raw (hw s))) (traced (battery_trace (hw s)) s).
Proof. unfold mbind, M_bind. by rewrite read_battery_voltage_run. Qed.

(** One step of symbolic execution, then the projections it exposed. *)
Ltac step :=
  first [ rewrite bind_bind | rewrite bind_ret | rewrite bind_skip
        | rewrite bind_gets | rewrite bind_modify_rtc | rewrite bind_modify
        | rewrite bind_call | rewrite bind_read_battery_voltage
        | rewrite (bind_emits _ _ _ _ emits_configure_gpio_for_sleep)
        | rewrite (bind_emits _ _ _ _ emits_restore_gpio_after_wake) ];
  cbv beta; proj.

(** ** Entry actions, mode by mode *)

Lemma enter_active (s : state) :
  entry_actions POWER_MODE_ACTIVE s =
  Returned tt
    (traced (uart_driver_install 0 256 ::
             if enable_wifi_modem_sleep (config s)
             then [esp_wifi_set_ps WIFI_PS_NONE] else []) s).
Proof.
  unfold entry_actions. repeat step.
  destruct (enable_wifi_modem_sleep (config s)).
  - rewrite (emits_call _ _). f_equal. same_state.
  - rewrite (emits_skip _). f_equal. same_state.
Qed.

Lemma enter_modem_sleep (s : state) :
  entry_actions POWER_MODE_MODEM_SLEEP s =
  Returned tt (traced [esp_wifi_set_ps WIFI_PS_MIN_MODEM] s).
Proof. reflexivity. Qed.

Lemma enter_light_sleep (s : state) :
  entry_actions POWER_MODE_LIGHT_SLEEP s =
  Returned tt
    (with_last_activity_time (u32 (millis_now (hw s) + light_sleep_ms (hw s)))
       (traced [uart_driver_install 0 256]
          (with_hw (advance_clock (light_sleep_ms (hw s)))
             (traced (light_sleep_prelude (config s) ++
                      [esp_light_sleep_start (rtc_state s)]) s)))).
Proof.
  unfold entry_actions, do_esp_light_sleep_start, millis. repeat step.
  unfold modify. f_equal. unfold light_sleep_prelude. same_state.
Qed.

Lemma enter_deep_sleep (s : state) :
  let r' := persist_for_sleep POWER_MODE_DEEP_SLEEP (millis_now (hw s))
              (adc_to_voltage (adc_raw (hw s))) (rtc_state s) in
  entry_actions POWER_MODE_DEEP_SLEEP s =
  Suspended
    (traced (deep_sleep_trace (config s) (hw s) ++ [esp_deep_sleep_start r'])
       (with_rtc_state (fun _ => r') s)).
Proof.
  unfold entry_actions, send_minimal_telemetry, millis. repeat step.
  unfold deep_sleep_trace, persist_for_sleep, do_esp_deep_sleep_start.
  destruct (enable_ulp (config s)); repeat step; f_equal; same_state.
Qed.

Lemma enter_hibernation (s : state) :
  let r' := commit (Rtc.set_current_mode
                      (mode_code POWER_MODE_HIBERNATION) (rtc_state s)) in
  entry_actions POWER_MODE_HIBERNATION s =
  Suspended
    (traced (hibernation_trace (config s) (hw s) ++ [esp_deep_sleep_start r'])
       (with_rtc_state (fun _ => r') s)).
Proof.
  unfold entry_actions. repeat step.
  assert (Hloop : emits
    (for_each (seqZ 0 (GPIO_NUM_MAX (hw s)))
       (fun i => if negb (i =? wake_pin (config s))
                    && rtc_gpio_is_valid_gpio (hw s) i
                 then call (rtc_gpio_isolate i) else skip))
    (isolate_trace (config s) (hw s))).
  { apply emits_for_each. intros i. destruct (_ && _); auto with pm. }
  rewrite (bind_emits _ _ _ _ Hloop).
  repeat step.
  unfold do_esp_deep_sleep_start, hibernation_trace, isolate_trace, commit.
  f_equal. same_state.
Qed.
(** ** [power_manager_set_mode] *)

Lemma mode_eqb_eq (a b : power_mode_t) : mode_eqb a b = true <-> a = b.
Proof. destruct a, b; unfold mode_eqb; simpl; split; congruence. Qed.

Lemma mode_eqb_refl (a : power_mode_t) : mode_eqb a a = true.
Proof. by apply mode_eqb_eq. Qed.

Lemma mode_eqb_neq (a b : power_mode_t) : a <> b -> mode_eqb a b = false.
Proof.
  intros H. destruct (mode_eqb a b) eqn:E; [|done].
  by apply mode_eqb_eq in E.
Qed.

Lemma set_mode_other (mode : power_mode_t) (s : state) :
  mode <> current_mode s ->
  power_manager_set_mode mode s =
  match entry_actions mode (traced [transition_msg] s) with
  | Returned _ s' => Returned true (with_current_mode mode s')
  | Suspended s' => Suspended s'
  end.
Proof.
  intros H. unfold power_manager_set_mode. run.
  rewrite (mode_eqb_neq _ _ H). reflexivity.
Qed.

Lemma set_mode_active (s : state) :
  power_manager_set_mode POWER_MODE_ACTIVE s =
  Returned true
    (traced (if mode_eqb POWER_MODE_ACTIVE (current_mode s) then []
             else transition_msg :: uart_driver_install 0 256 ::
                  if enable_wifi_modem_sleep (config s)
                  then [esp_wifi_set_ps WIFI_PS_NONE] else [])
       (with_current_mode POWER_MODE_ACTIVE s)).
Proof.
  destruct (mode_eqb POWER_MODE_ACTIVE (current_mode s)) eqn:E.
  - unfold power_manager_set_mode. run. rewrite E.
    apply mode_eqb_eq in E. rewrite traced_nil, E.
    by rewrite with_current_mode_id.
  - rewrite set_mode_other by (intros H; by rewrite <- H in E).
    rewrite enter_active. f_equal. same_state.
Qed.

Lemma set_mode_light_sleep (s : state) :
  current_mode s <> POWER_MODE_LIGHT_SLEEP ->
  power_manager_set_mode POWER_MODE_LIGHT_SLEEP s =
  Returned true
    (with_current_mode POWER_MODE_LIGHT_SLEEP
       (with_last_activity_time
          (u32 (millis_now (hw s) + light_sleep_ms (hw s)))
          (traced [uart_driver_install 0 256]
             (with_hw (advance_clock (light_sleep_ms (hw s)))
                (traced (transition_msg :: light_sleep_prelude (config s) ++
                         [esp_light_sleep_start (rtc_state s)]) s))))).
Proof.
  intros H. rewrite set_mode_other by done.
  rewrite enter_light_sleep. f_equal. same_state.
Qed.

Lemma set_mode_deep_sleep (s : state) :
  current_mode s <> POWER_MODE_DEEP_SLEEP ->
  let r' := persist_for_sleep POWER_MODE_DEEP_SLEEP (millis_now (hw s))
              (adc_to_voltage (adc_raw (hw s))) (rtc_state s) in
  power_manager_set_mode POWER_MODE_DEEP_SLEEP s =
  Suspended
    (traced (transition_msg :: deep_sleep_trace (config s) (hw s) ++
             [esp_deep_sleep_start r'])
       (with_rtc_state (fun _ => r') s)).
Proof.
  intros H r'. rewrite set_mode_other by done.
  rewrite enter_deep_sleep. f_equal. same_state.
Qed.

Lemma set_mode_hibernation (s : state) :
  current_mode s <> POWER_MODE_HIBERNATION ->
  let r' := commit (Rtc.set_current_mode
                      (mode_code POWER_MODE_HIBERNATION) (rtc_state s)) in
  power_manager_set_mode POWER_MODE_HIBERNATION s =
  Suspended
    (traced (transition_msg :: hibernation_trace (config s) (hw s) ++
             [esp_deep_sleep_start r'])
       (with_rtc_state (fun _ => r') s)).
Proof.
  intros H r'. rewrite set_mode_other by done.
  rewrite enter_hibernation. f_equal. same_state.
Qed.

(** ** The checksum *)

Lemma u32_small (z : Z) : is_u32 z -> u32 z = z.
Proof. unfold is_u32, u32. intros H. by apply Z.mod_small. Qed.

Lemma fold_sum_u32 (l : list Z) (a : Z) :
  fold_left (fun sum b => u32 (sum + b)) l (u32 a) = u32 (a + sumZ l).
Proof.
  revert a. induction l as [|b l IH]; intros a; simpl.
  - by rewrite Z.add_0_r.
  - rewrite IH. unfold u32. rewrite <- Z.add_assoc, Zplus_mod_idemp_l.
    reflexivity.
Qed.

Lemma sum_bytes_sumZ (l : list Z) : sum_bytes l = u32 (sumZ l).
Proof. unfold sum_bytes. apply (fold_sum_u32 l 0). Qed.

Lemma sumZ_bytes_bound (l : list Z) :
  Forall is_u8 l -> 0 <= sumZ l <= 255 * Z.of_nat (length l).
Proof.
  induction 1 as [|x l Hx _ IH]; simpl; [lia|].
  unfold is_u8 in Hx. lia.
Qed.

Lemma sumZ_insert (l : list Z) (i : nat) (old b : Z) :
  l !! i = Some old -> sumZ (<[i:=b]> l) = sumZ l - old + b.
Proof.
  revert i. induction l as [|x l IH]; intros [|i] H; simplify_eq/=.
  - lia.
  - rewrite (IH i H). lia.
Qed.

Lemma le32_length (z : Z) : length (Rtc.le32 z) = 4%nat.
Proof. reflexivity. Qed.

Lemma le32_bytes (z : Z) : Forall is_u8 (Rtc.le32 z).
Proof.
  unfold Rtc.le32, is_u8. repeat constructor; apply Z.mod_pos_bound; lia.
Qed.

Lemma payload_length (r : Rtc.t) :
  length (Rtc.telemetry_buffer r) = 256%nat ->
  length (Rtc.payload r) = Rtc.CHECKSUM_OFFSET.
Proof.
  intros H. unfold Rtc.payload, Rtc.CHECKSUM_OFFSET.
  rewrite !length_app, !le32_length, H. reflexivity.
Qed.

Lemma bytes_length (r : Rtc.t) :
  length (Rtc.telemetry_buffer r) = 256%nat -> length (Rtc.bytes r) = Rtc.SIZE.
Proof.
  intros H. unfold Rtc.bytes. rewrite length_app, (payload_length r H).
  reflexivity.
Qed.

Lemma payload_bytes (r : Rtc.t) : Rtc.wf r -> Forall is_u8 (Rtc.payload r).
Proof.
  intros [? ? ? ? ? ? ? ? ? [? ?] ?]. unfold Rtc.payload.
  repeat (apply Forall_app; split); auto using le32_bytes.
Qed.

Lemma checksum_is_payload_sum (r : Rtc.t) :
  length (Rtc.telemetry_buffer r) = 256%nat ->
  calculate_checksum r = u32 (sumZ (Rtc.payload r)).
Proof.
  intros H. unfold calculate_checksum, checksum_of_image, Rtc.bytes.
  rewrite take_app_length' by (symmetry; by apply payload_length).
  apply sum_bytes_sumZ.
Qed.

Lemma checksum_ignores_checksum (r : Rtc.t) (c : Z) :
  length (Rtc.telemetry_buffer r) = 256%nat ->
  calculate_checksum (Rtc.set_checksum c r) = calculate_checksum r.
Proof.
  intros H. rewrite !checksum_is_payload_sum by done. reflexivity.
Qed.

Lemma commit_committed (r : Rtc.t) :
  length (Rtc.telemetry_buffer r) = 256%nat -> committed (commit r).
Proof.
  intros H. unfold committed, commit.
  rewrite checksum_ignores_checksum by done. reflexivity.
Qed.

Lemma u32_shift_differs (a d : Z) : 0 < Z.abs d < 2 ^ 32 -> u32 (a + d) <> u32 a.
Proof.
  unfold u32. intros Hd Heq.
  assert (Hz : (a + d - a) mod 2 ^ 32 = 0).
  { rewrite Zminus_mod, Heq, Z.sub_diag. reflexivity. }
  replace (a + d - a) with d in Hz by lia.
  apply Z.mod_divide in Hz; [|lia].
  destruct Hz as [k Hk]. nia.
Qed.

(** C6. The checksum is the additive sum of the 280 bytes of the record in
    front of the [checksum] field: it does not depend on the stored
    checksum, so recomputing it over an unchanged record (also right after
    storing it) gives the same value; and overwriting any single byte in
    front of the [checksum] field with a different byte changes it. *)
Theorem checksum_detects_single_byte (r : Rtc.t) :
  Rtc.wf r ->
  calculate_checksum r = sumZ (Rtc.payload r) /\
  (forall c, calculate_checksum (Rtc.set_checksum c r) = calculate_checksum r) /\
  calculate_checksum (commit r) = calculate_checksum r /\
  (forall (i : nat) (b : Z),
      (i < Rtc.CHECKSUM_OFFSET)%nat -> is_u8 b -> Rtc.bytes r !! i <> Some b ->
      checksum_of_image (<[i:=b]> (Rtc.bytes r)) <> calculate_checksum r).
Proof.
  intros Hwf.
  pose proof (Rtc.wf_telemetry_buffer_len r Hwf) as Hlen.
  pose proof (payload_length r Hlen) as Hpl.
  pose proof (payload_bytes r Hwf) as Hpb.
  repeat split.
  - rewrite checksum_is_payload_sum by done. apply u32_small.
    pose proof (sumZ_bytes_bound _ Hpb) as Hb. rewrite Hpl in Hb.
    unfold is_u32, Rtc.CHECKSUM_OFFSET in *. lia.
  - intros c. by apply checksum_ignores_checksum.
  - by apply checksum_ignores_checksum.
  - intros i b Hi Hb Hne.
    rewrite checksum_is_payload_sum by done.
    unfold checksum_of_image, Rtc.bytes.
    rewrite take_insert_lt by done.
    rewrite take_app_length' by done.
    destruct (lookup_lt_is_Some_2 (Rtc.payload r) i) as [old Hold]; [lia|].
    rewrite sum_bytes_sumZ, (sumZ_insert _ _ old) by done.
    replace (sumZ (Rtc.payload r) - old + b)
      with (sumZ (Rtc.payload r) + (b - old)) by lia.
    apply u32_shift_differs.
    assert (is_u8 old) as Ho.
    { eapply Forall_lookup_1; [apply Hpb | apply Hold]. }
    assert (old <> b).
    { intros ->. apply Hne. unfold Rtc.bytes.
      rewrite lookup_app_l by lia. done. }
    unfold is_u8 in *. lia.
Qed.

(** ** Mode changes requested by the caller *)

Lemma set_mode_current (s : state) :
  power_manager_set_mode (current_mode s) s = Returned true s.
Proof. unfold power_manager_set_mode. run. by rewrite mode_eqb_refl. Qed.

(** C9. [setMode(X)] while the current mode is [X] returns [true] and leaves
    the whole machine as it was: the RTC record, the statics and the trace of
    platform calls (no entry action ran). *)
Theorem set_mode_same_is_noop (mode : power_mode_t) (s : state) :
  current_mode s = mode ->
  power_manager_set_mode mode s = Returned true s.
Proof. intros <-. apply set_mode_current. Qed.

Lemma set_mode_same_is_noop_witness :
  power_manager_set_mode POWER_MODE_ACTIVE s_ready = Returned true s_ready.
Proof. apply (set_mode_same_is_noop POWER_MODE_ACTIVE s_ready). reflexivity. Defined.

(** C10. Before [init] has completed, [process] returns at once: the machine
    is unchanged, and no platform call (so no mode transition) was made. *)
Theorem process_before_init_is_noop (s : state) :
  initialized s = false ->
  power_manager_process s = Returned tt s.
Proof.
  intros H. unfold power_manager_process. run. by rewrite H.
Qed.

Lemma process_before_init_is_noop_witness :
  power_manager_process (boot rtc_sample hw_timer_wake)
  = Returned tt (boot rtc_sample hw_timer_wake).
Proof.
  apply (process_before_init_is_noop (boot rtc_sample hw_timer_wake)).
  reflexivity.
Defined.

(** C8. [activity] stores the current time as the last-activity time and
    then behaves as [setMode(ACTIVE)]; it returns with the current mode
    [ACTIVE], and apart from these two statics only the trace has changed. *)
Theorem activity_forces_active (s : state) :
  let s1 := with_last_activity_time (millis_now (hw s)) s in
  power_manager_activity s = (power_manager_set_mode POWER_MODE_ACTIVE;; skip) s1 /\
  exists tr,
    let s' := traced tr (with_current_mode POWER_MODE_ACTIVE s1) in
    power_manager_activity s = Returned tt s' /\
    current_mode s' = POWER_MODE_ACTIVE /\
    last_activity_time s' = millis_now (hw s).
Proof.
  intros s1.
  assert (Hrun : power_manager_activity s
                 = (power_manager_set_mode POWER_MODE_ACTIVE;; skip) s1).
  { unfold power_manager_activity, millis. run. fold s1.
    destruct (mode_eqb (current_mode s) POWER_MODE_ACTIVE) eqn:E; simpl.
    - apply mode_eqb_eq in E.
      replace POWER_MODE_ACTIVE with (current_mode s1) at 1 by exact E.
      by rewrite set_mode_current.
    - reflexivity. }
  split; [exact Hrun|].
  rewrite Hrun. unfold mbind, M_bind. rewrite set_mode_active.
  eexists. split; [reflexivity|]. split; reflexivity.
Qed.

(** C7. [setAlert(pending)] stores [pending] in the persisted flag, so that
    [hasAlert] then returns [pending]; when [pending] holds and the current
    mode is [LIGHT_SLEEP] or deeper it goes on as [setMode(ACTIVE)] and the
    current mode is [ACTIVE] afterwards; otherwise the mode is kept. *)
Theorem set_alert_stores_and_wakes (alert : bool) (s : state) :
  let s1 := with_rtc_state
              (Rtc.set_critical_alert_pending (Z.b2z alert)) s in
  let wakes := alert && (mode_code POWER_MODE_LIGHT_SLEEP
                         <=? mode_code (current_mode s)) in
  power_manager_set_alert alert s =
    (if wakes then (power_manager_set_mode POWER_MODE_ACTIVE;; skip) s1
     else Returned tt s1) /\
  exists s',
    power_manager_set_alert alert s = Returned tt s' /\
    power_manager_has_alert s' = Returned alert s' /\
    current_mode s' = (if wakes then POWER_MODE_ACTIVE else current_mode s).
Proof.
  intros s1 wakes.
  assert (Hrun : power_manager_set_alert alert s =
    (if wakes then (power_manager_set_mode POWER_MODE_ACTIVE;; skip) s1
     else Returned tt s1)).
  { unfold power_manager_set_alert. run. fold s1.
    rewrite Z.geb_leb. fold wakes. by destruct wakes. }
  split; [exact Hrun|].
  rewrite Hrun. destruct wakes.
  - unfold mbind, M_bind. rewrite set_mode_active.
    eexists. split; [reflexivity|]. split; [|reflexivity].
    unfold power_manager_has_alert. run. by destruct alert.
  - exists s1. split; [reflexivity|]. split; [|reflexivity].
    unfold power_manager_has_alert. run. by destruct alert.
Qed.

(** ** Well-formed records *)

Lemma byte_ok_spec (z : Z) : Rtc.byte_ok z = true -> is_u8 z.
Proof. unfold Rtc.byte_ok, is_u8. lia. Qed.

Lemma word_ok_spec (z : Z) : Rtc.word_ok z = true -> is_u32 z.
Proof. unfold Rtc.word_ok, is_u32. lia. Qed.

Lemma wfb_wf (r : Rtc.t) : Rtc.wfb r = true -> Rtc.wf r.
Proof.
  unfold Rtc.wfb. rewrite !andb_true_iff.
  intros [[[[[[[[[[[? ?] ?] ?] ?] ?] Hl] Hb] ?] ?] ?] ?].
  constructor; auto using byte_ok_spec, word_ok_spec.
  - by apply Nat.eqb_eq.
  - apply Forall_forall. intros x Hx. apply byte_ok_spec.
    rewrite forallb_forall in Hb. apply Hb. by apply list_elem_of_In.
Qed.

Lemma checksum_detects_single_byte_witness :
  Rtc.wf rtc_sample /\
  checksum_of_image (<[23%nat:=7]> (Rtc.bytes rtc_sample))
  <> calculate_checksum rtc_sample.
Proof.
  split; [apply wfb_wf; reflexivity|].
  apply (checksum_detects_single_byte rtc_sample (wfb_wf rtc_sample eq_refl)).
  - unfold Rtc.CHECKSUM_OFFSET. lia.
  - unfold is_u8. lia.
  - vm_compute. discriminate.
Defined.

(** ** Initialization *)

(** C2. [init] always returns, with [initialized] set.  On a wake-up cause
    other than [UNDEFINED] it recomputes the checksum of the stored record:
    when it equals the stored checksum the record is kept and [wake_count]
    goes up by one (a [uint32_t] increment); when it differs the record is
    zeroed.  On a cold boot ([UNDEFINED]) the record is zeroed whatever it
    holds.  A zeroed record has [wake_count = 0] and an empty, zero-filled
    telemetry buffer. *)
Theorem init_validates_record (user_config : option power_config_t) (s : state) :
  let r := rtc_state s in
  exists s',
    power_manager_init user_config s = Returned tt s' /\
    initialized s' = true /\
    rtc_state s' =
      (if is_undefined (wakeup_cause (hw s)) then Rtc.zero
       else if calculate_checksum r =? Rtc.checksum r
            then Rtc.set_wake_count (u32 (Rtc.wake_count r + 1)) r
            else Rtc.zero) /\
    (is_undefined (wakeup_cause (hw s)) = true \/
     calculate_checksum r <> Rtc.checksum r ->
     Rtc.wake_count (rtc_state s') = 0 /\
     Rtc.buffer_index (rtc_state s') = 0 /\
     Rtc.telemetry_buffer (rtc_state s') = replicate 256 0).
Proof.
  intros r.
  assert (Hzero : forall x : Rtc.t, x = Rtc.zero ->
            Rtc.wake_count x = 0 /\ Rtc.buffer_index x = 0 /\
            Rtc.telemetry_buffer x = replicate 256 0).
  { by intros x ->. }
  unfold power_manager_init, esp_sleep_get_wakeup_cause,
    configure_ulp_program, millis.
  destruct user_config as [c|]; run;
    destruct (is_undefined (wakeup_cause (hw s))) eqn:Hc; run;
    try (fold r; destruct (calculate_checksum r =? Rtc.checksum r) eqn:Hk; run);
    match goal with
    | |- context [enable_ulp ?c] => destruct (enable_ulp c); run
    end;
    (eexists; split; [reflexivity|]; split; [reflexivity|]; split;
     [reflexivity|]);
    intros [Hu|Hne]; try discriminate; try (by apply Hzero);
    apply Z.eqb_eq in Hk; contradiction.
Qed.

Lemma init_validates_record_witness :
  exists s',
    power_manager_init None (boot rtc_corrupted hw_timer_wake) = Returned tt s' /\
    Rtc.wake_count (rtc_state s') = 0 /\
    Rtc.buffer_index (rtc_state s') = 0 /\
    Rtc.telemetry_buffer (rtc_state s') = replicate 256 0.
Proof.
  destruct (init_validates_record None (boot rtc_corrupted hw_timer_wake))
    as (s' & Hrun & _ & _ & Hz).
  exists s'. split; [exact Hrun|].
  apply Hz. right. vm_compute. discriminate.
Defined.

(** ** The telemetry staging buffer *)

Lemma memcpy_length (dst : list Z) (pos : nat) (src : list Z) (n : nat) :
  length (memcpy dst pos src n) = length dst.
Proof.
  revert dst pos src. induction n as [|n IH]; intros dst pos [|b src]; simpl;
    try done.
  by rewrite IH, length_insert.
Qed.

Lemma memcpy_spec (dst : list Z) (pos : nat) (src : list Z) :
  (pos + length src <= length dst)%nat ->
  memcpy dst pos src (length src)
  = take pos dst ++ src ++ drop (pos + length src) dst.
Proof.
  revert dst pos. induction src as [|b src IH]; intros dst pos H; simpl in *.
  - by rewrite Nat.add_0_r, take_drop.
  - rewrite IH by (rewrite length_insert; lia).
    rewrite take_insert_lt by lia.
    rewrite drop_insert_lt by lia.
    destruct (lookup_lt_is_Some_2 dst pos) as [x Hx]; [lia|].
    rewrite (take_S_r _ _ x) by done.
    rewrite insert_app_r_alt by (rewrite length_take; lia).
    rewrite length_take, Nat.min_l, Nat.sub_diag by lia. simpl.
    rewrite <- app_assoc. simpl. repeat f_equal. lia.
Qed.

(** C5. [append]: when cursor plus [len] reaches 256 or more, the call
    returns [false] and the machine (cursor and buffer included) is
    unchanged; otherwise the [len] bytes are written from the cursor on, the
    cursor advances by [len], nothing else changes, and the call returns
    [true].  From an empty buffer this makes an append of 200 bytes succeed
    and a following append of 60 bytes fail. *)
Theorem buffer_telemetry_bounded (data : list Z) (len : Z) (s : state) :
  let buf := Rtc.telemetry_buffer (rtc_state s) in
  let idx := Rtc.buffer_index (rtc_state s) in
  0 <= idx -> 0 <= len ->
  length data = Z.to_nat len ->
  length buf = 256%nat ->
  power_manager_buffer_telemetry data len s =
    if 256 <=? idx + len then Returned false s
    else Returned true
           (with_rtc_state
              (fun r =>
                 Rtc.set_buffer_index (idx + len)
                   (Rtc.set_telemetry_buffer
                      (take (Z.to_nat idx) buf ++ data ++
                       drop (Z.to_nat (idx + len)) buf) r)) s).
Proof.
  intros buf idx Hidx Hlen Hdata Hbuf.
  unfold power_manager_buffer_telemetry. run. fold idx buf.
  unfold Rtc.BUFFER_SIZE. rewrite Z.geb_leb.
  destruct (256 <=? idx + len) eqn:E; [reflexivity|].
  apply Z.leb_gt in E.
  f_equal. apply state_ext; proj; try reflexivity.
  fold buf idx. rewrite <- Hdata, memcpy_spec by lia.
  unfold u8. rewrite Z.mod_small by lia.
  rewrite Hdata, <- Z2Nat.inj_add by lia. reflexivity.
Qed.

Lemma buffer_telemetry_bounded_witness :
  let s1 := with_rtc_state
              (fun r => Rtc.set_buffer_index 200
                          (Rtc.set_telemetry_buffer
                             (replicate 200 170 ++ replicate 56 0) r)) s_ready in
  power_manager_buffer_telemetry (replicate 200 170) 200 s_ready
  = Returned true s1 /\
  power_manager_buffer_telemetry (replicate 60 187) 60 s1 = Returned false s1.
Proof.
  split.
  - apply (buffer_telemetry_bounded (replicate 200 170) 200 s_ready);
      reflexivity || (vm_compute; discriminate).
  - apply (buffer_telemetry_bounded (replicate 60 187) 60
             (with_rtc_state
                (fun r => Rtc.set_buffer_index 200
                            (Rtc.set_telemetry_buffer
                               (replicate 200 170 ++ replicate 56 0) r))
                s_ready));
      reflexivity || (vm_compute; discriminate).
Defined.

(** The buffer keeps its 256 bytes, whatever is appended. *)
Lemma buffer_telemetry_keeps_length (data : list Z) (len : Z) (s : state) :
  length (Rtc.telemetry_buffer
            (rtc_state (final (power_manager_buffer_telemetry data len s))))
  = length (Rtc.telemetry_buffer (rtc_state s)).
Proof.
  unfold power_manager_buffer_telemetry. step.
  destruct (_ >=? _); [reflexivity|]. repeat step.
  unfold mret, M_ret. proj. apply memcpy_length.
Qed.

(** Draining copies out [min(cursor, max)] bytes and keeps the buffer;
    clearing resets the cursor and zero-fills the storage. *)
Example drain_after_append :
  let s1 := final (power_manager_buffer_telemetry (replicate 200 170) 200
                     s_ready) in
  power_manager_get_buffered_telemetry (replicate 255 0) 255 s1
  = Returned (200, replicate 200 170 ++ replicate 55 0) s1 /\
  fst <$> (match (power_manager_clear_buffer;;
                  power_manager_get_buffered_telemetry [] 255) s1 with
           | Returned a _ => Some a
           | Suspended _ => None
           end) = Some 0.
Proof. split; vm_compute; reflexivity. Qed.

(** ** The policy of [process] *)

Lemma last_traced (tr : list hw_call) (e : hw_call) (s : state) :
  last (trace (hw (traced (tr ++ [e]) s))) = Some e.
Proof.
  proj. by rewrite app_assoc, last_snoc.
Qed.

(** C1. After initialization [process] samples the idle time and the battery
    voltage and then acts on the first rule of the table that matches, in
    the order critical battery, low battery and half the idle timeout, and,
    from [ACTIVE] only, deep-sleep timeout, idle timeout, half the idle
    timeout: it goes on as [setMode] of that rule's target, and when no rule
    matches it returns with nothing but the trace changed.  With the battery
    below critical, the mode [ACTIVE] and the idle time above the deep-sleep
    timeout, the processor is suspended with [HIBERNATION] as the persisted
    mode. *)
Theorem process_first_match_wins (s : state) :
  initialized s = true ->
  let idle_time := u32 (millis_now (hw s) - last_activity_time s) in
  let battery_v := adc_to_voltage (adc_raw (hw s)) in
  (exists tr,
     power_manager_process s =
     match first_match
             (policy_rules (config s) (current_mode s) battery_v idle_time) with
     | Some target => (power_manager_set_mode target;; skip) (traced tr s)
     | None => Returned tt (traced tr s)
     end) /\
  (F32.ltb battery_v (battery_critical_v (config s)) = true ->
   current_mode s = POWER_MODE_ACTIVE ->
   idle_time > deep_sleep_timeout_ms (config s) ->
   exists s',
     power_manager_process s = Suspended s' /\
     Rtc.current_mode (rtc_state s') = mode_code POWER_MODE_HIBERNATION /\
     last (trace (hw s')) = Some (esp_deep_sleep_start (rtc_state s'))).
Proof.
  intros Hinit idle_time battery_v.
  assert (Hrun : exists tr,
     power_manager_process s =
     match first_match
             (policy_rules (config s) (current_mode s) battery_v idle_time) with
     | Some target => (power_manager_set_mode target;; skip) (traced tr s)
     | None => Returned tt (traced tr s)
     end /\
     (F32.ltb battery_v (battery_critical_v (config s)) = true ->
      tr = battery_trace (hw s) ++
           [Serial_printf "[PWR] Critical battery: %.2fV, hibernating!"])).
  { unfold power_manager_process, millis. step. rewrite Hinit.
    cbn [negb]. repeat step. fold idle_time battery_v.
    unfold policy_rules, first_match.
    destruct (F32.ltb battery_v (battery_critical_v (config s))) eqn:Hcrit.
    { step. rewrite traced_app. eexists. split; reflexivity. }
    exists (battery_trace (hw s)). split; [|discriminate].
    destruct (F32.ltb battery_v (battery_low_v (config s))
              && (idle_time >? idle_timeout_ms (config s) / 2)) eqn:Hlow;
      [reflexivity|].
    step.
    destruct (current_mode s); cbn [mode_eqb mode_code Z.eqb Pos.eqb];
      simpl; try reflexivity.
    destruct (idle_time >? deep_sleep_timeout_ms (config s)); [reflexivity|].
    destruct (idle_time >? idle_timeout_ms (config s)); [reflexivity|].
    destruct (idle_time >? idle_timeout_ms (config s) / 2); reflexivity. }
  destruct Hrun as (tr & Hrun & Htr).
  split; [by exists tr|].
  intros Hcrit Hact Hidle. rewrite Hrun.
  unfold policy_rules, first_match. rewrite Hcrit.
  unfold mbind, M_bind.
  rewrite set_mode_hibernation by (simpl; rewrite Hact; discriminate).
  eexists. split; [reflexivity|]. split; [reflexivity|].
  rewrite app_comm_cons. apply last_traced.
Qed.

Lemma process_first_match_wins_witness :
  exists s',
    power_manager_process s_idle_critical = Suspended s' /\
    Rtc.current_mode (rtc_state s') = mode_code POWER_MODE_HIBERNATION /\
    last (trace (hw s')) = Some (esp_deep_sleep_start (rtc_state s')).
Proof.
  apply (proj2 (process_first_match_wins s_idle_critical eq_refl));
    reflexivity.
Defined.

(** With the battery at 3.7 V and 35 s idle (idle timeout 30 s, deep-sleep
    timeout 300 s) an [ACTIVE] machine enters [LIGHT_SLEEP]; with the
    battery at 2.9 V it hibernates. *)
Example threshold_scenarios :
  current_mode (final (power_manager_process s_idle_35s))
  = POWER_MODE_LIGHT_SLEEP /\
  first_match (policy_rules default_config POWER_MODE_ACTIVE
                 (adc_to_voltage 1800) 0)
  = Some POWER_MODE_HIBERNATION.
Proof. split; vm_compute; reflexivity. Qed.

(** ** What is persisted before the processor is suspended *)

(** C3, as the code has it.  Entering [HIBERNATION] stores the mode in the
    RTC record, then recomputes and stores the checksum, and only then makes
    the suspend call, which sees exactly that record; the stored last-active
    time and battery voltage are left as they were. *)
Theorem hibernation_persists_mode_only (s : state) :
  current_mode s <> POWER_MODE_HIBERNATION ->
  let r := rtc_state s in
  let r' := commit (Rtc.set_current_mode
                      (mode_code POWER_MODE_HIBERNATION) r) in
  (exists tr,
     power_manager_set_mode POWER_MODE_HIBERNATION s =
     Suspended (traced (tr ++ [esp_deep_sleep_start r'])
                  (with_rtc_state (fun _ => r') s))) /\
  Rtc.current_mode r' = mode_code POWER_MODE_HIBERNATION /\
  Rtc.checksum r' =
    calculate_checksum
      (Rtc.set_current_mode (mode_code POWER_MODE_HIBERNATION) r) /\
  Rtc.last_active_time r' = Rtc.last_active_time r /\
  Rtc.battery_voltage r' = Rtc.battery_voltage r.
Proof.
  intros H r r'. split; [|repeat split].
  exists (transition_msg :: hibernation_trace (config s) (hw s)).
  by rewrite set_mode_hibernation.
Qed.

Lemma hibernation_persists_mode_only_witness :
  exists tr,
    power_manager_set_mode POWER_MODE_HIBERNATION s_idle_critical =
    Suspended
      (traced (tr ++ [esp_deep_sleep_start
                        (commit (Rtc.set_current_mode 4
                                   (rtc_state s_idle_critical)))])
         (with_rtc_state
            (fun _ => commit (Rtc.set_current_mode 4
                                (rtc_state s_idle_critical)))
            s_idle_critical)).
Proof.
  apply (hibernation_persists_mode_only s_idle_critical).
  vm_compute. discriminate.
Defined.

(** C3, as stated, fails: on the machine woken by the timer and idle for six
    minutes the clock reads 361000 ms, the last activity was at 1000 ms and
    the battery is at 2.9 V, but the record the processor hibernates with
    still holds the time (420000) and the voltage (3.3 V) stored by the
    previous deep sleep; it is not the record the persistence step of
    [DEEP_SLEEP] would have written. *)
Lemma hibernation_persistence_counterexample :
  millis_now (hw s_idle_critical) = 361000 /\
  last_activity_time s_idle_critical = 1000 /\
  Rtc.last_active_time
    (rtc_state (final (power_manager_set_mode POWER_MODE_HIBERNATION
                         s_idle_critical))) = 420000 /\
  Rtc.battery_voltage
    (rtc_state (final (power_manager_set_mode POWER_MODE_HIBERNATION
                         s_idle_critical)))
  <> F32.bits (adc_to_voltage (adc_raw (hw s_idle_critical))) /\
  rtc_state (final (power_manager_set_mode POWER_MODE_HIBERNATION
                      s_idle_critical))
  <> persist_for_sleep POWER_MODE_HIBERNATION
       (millis_now (hw s_idle_critical))
       (adc_to_voltage (adc_raw (hw s_idle_critical)))
       (rtc_state s_idle_critical).
Proof.
  split; [reflexivity|]. split; [reflexivity|]. split; [reflexivity|]. split.
  - vm_compute. discriminate.
  - intros H. apply (f_equal Rtc.last_active_time) in H.
    vm_compute in H. discriminate.
Qed.

(** C4, as the code has it.  The two transitions that do not return,
    [DEEP_SLEEP] and [HIBERNATION], store the recomputed checksum before the
    suspend call and do not write to the record afterwards: the record the
    suspend call sees is committed.  Entering [LIGHT_SLEEP] does not touch
    the record at all, checksum included. *)
Theorem deep_suspend_commits (s : state) :
  length (Rtc.telemetry_buffer (rtc_state s)) = 256%nat ->
  (forall mode,
      mode = POWER_MODE_DEEP_SLEEP \/ mode = POWER_MODE_HIBERNATION ->
      current_mode s <> mode ->
      exists tr s',
        power_manager_set_mode mode s = Suspended s' /\
        trace (hw s')
        = trace (hw s) ++ tr ++ [esp_deep_sleep_start (rtc_state s')] /\
        Rtc.current_mode (rtc_state s') = mode_code mode /\
        committed (rtc_state s')) /\
  (current_mode s <> POWER_MODE_LIGHT_SLEEP ->
   exists tr1 tr2 s',
     power_manager_set_mode POWER_MODE_LIGHT_SLEEP s = Returned true s' /\
     rtc_state s' = rtc_state s /\
     trace (hw s')
     = trace (hw s) ++ tr1 ++ esp_light_sleep_start (rtc_state s) :: tr2).
Proof.
  intros Hlen. split.
  - intros mode [-> | ->] Hcur.
    + rewrite set_mode_deep_sleep by done.
      exists (transition_msg :: deep_sleep_trace (config s) (hw s)).
      eexists. split; [reflexivity|]. proj. split; [|split].
      * reflexivity.
      * reflexivity.
      * apply commit_committed. exact Hlen.
    + rewrite set_mode_hibernation by done.
      exists (transition_msg :: hibernation_trace (config s) (hw s)).
      eexists. split; [reflexivity|]. proj. split; [|split].
      * reflexivity.
      * reflexivity.
      * apply commit_committed. exact Hlen.
  - intros Hcur. rewrite set_mode_light_sleep by done.
    exists (transition_msg :: light_sleep_prelude (config s)),
           [uart_driver_install 0 256].
    eexists. split; [reflexivity|]. proj. split; [reflexivity|].
    rewrite <- app_assoc. f_equal.
Qed.

Lemma deep_suspend_commits_witness :
  exists tr s',
    power_manager_set_mode POWER_MODE_DEEP_SLEEP s_woken = Suspended s' /\
    trace (hw s')
    = trace (hw s_woken) ++ tr ++ [esp_deep_sleep_start (rtc_state s')] /\
    Rtc.current_mode (rtc_state s') = mode_code POWER_MODE_DEEP_SLEEP /\
    committed (rtc_state s').
Proof.
  apply (proj1 (deep_suspend_commits s_woken eq_refl) POWER_MODE_DEEP_SLEEP).
  - left. reflexivity.
  - vm_compute. discriminate.
Defined.

(** C4, as stated, fails for [LIGHT_SLEEP]: the machine woken by the timer
    has counted the wake, so its stored checksum is stale, and entering
    [LIGHT_SLEEP] suspends the processor with the record in that state. *)
Lemma light_sleep_commit_counterexample :
  trace (hw (final (power_manager_set_mode POWER_MODE_LIGHT_SLEEP s_woken)))
  = trace (hw s_woken) ++
    transition_msg :: light_sleep_prelude (config s_woken) ++
    [esp_light_sleep_start (rtc_state s_woken); uart_driver_install 0 256] /\
  Rtc.checksum (rtc_state s_woken) = 545 /\
  calculate_checksum (rtc_state s_woken) = 546.
Proof.
  split; [|split]; vm_compute; reflexivity.
Qed.

(** * Further properties of the power manager *)

(** ** The staging buffer as a queue of chunks *)

Lemma memcpy_prefix (dst : list Z) (pos : nat) (src : list Z) (n : nat) :
  (n <= length src)%nat -> (pos + n <= length dst)%nat ->
  memcpy dst pos src n = take pos dst ++ take n src ++ drop (pos + n) dst.
Proof.
  revert dst pos src. induction n as [|n IH]; intros dst pos src Hn Hd.
  - destruct src; simpl; by rewrite Nat.add_0_r, take_drop.
  - destruct src as [|b src]; simpl in *; [lia|].
    rewrite IH by (rewrite ?length_insert; lia).
    rewrite take_insert_lt, drop_insert_lt by lia.
    destruct (lookup_lt_is_Some_2 dst pos) as [x Hx]; [lia|].
    rewrite (take_S_r _ _ x) by done.
    rewrite insert_app_r_alt by (rewrite length_take; lia).
    rewrite length_take, Nat.min_l, Nat.sub_diag by lia. simpl.
    rewrite <- app_assoc. simpl. repeat f_equal. lia.
Qed.

Lemma buffer_telemetry_run (data : list Z) (len : Z) (s : state) :
  let buf := Rtc.telemetry_buffer (rtc_state s) in
  let idx := Rtc.buffer_index (rtc_state s) in
  0 <= idx -> 0 <= len ->
  length data = Z.to_nat len ->
  length buf = 256%nat ->
  power_manager_buffer_telemetry data len s =
    if 256 <=? idx + len then Returned false s
    else Returned true
           (with_rtc_state
              (fun r =>
                 Rtc.set_buffer_index (idx + len)
                   (Rtc.set_telemetry_buffer
                      (take (Z.to_nat idx) buf ++ data ++
                       drop (Z.to_nat (idx + len)) buf) r)) s).
Proof.
  intros buf idx Hidx Hlen Hdata Hbuf.
  unfold power_manager_buffer_telemetry. run. fold idx buf.
  unfold Rtc.BUFFER_SIZE. rewrite Z.geb_leb.
  destruct (256 <=? idx + len) eqn:E; [reflexivity|].
  apply Z.leb_gt in E.
  f_equal. apply state_ext; proj; try reflexivity.
  fold buf idx. rewrite <- Hdata, memcpy_spec by lia.
  unfold u8. rewrite Z.mod_small by lia.
  rewrite Hdata, <- Z2Nat.inj_add by lia. reflexivity.
Qed.

(** X1. Draining copies the first [min(cursor, max_len)] buffered bytes to
    the front of the caller's buffer, returns that count, and changes
    nothing in the machine: the staged bytes and the cursor stay. *)
Theorem get_buffered_telemetry_copies_prefix (buffer : list Z) (max_len : Z)
    (s : state) :
  let buf := Rtc.telemetry_buffer (rtc_state s) in
  let idx := Rtc.buffer_index (rtc_state s) in
  let n := Z.to_nat (Z.min idx max_len) in
  0 <= idx < 256 -> 0 <= max_len ->
  length buf = 256%nat ->
  (n <= length buffer)%nat ->
  power_manager_get_buffered_telemetry buffer max_len s
  = Returned (Z.min idx max_len, take n buf ++ drop n buffer) s.
Proof.
  intros buf idx n Hidx Hmax Hbuf Hn.
  unfold power_manager_get_buffered_telemetry. run. fold buf idx n.
  rewrite memcpy_prefix by lia. reflexivity.
Qed.

Lemma get_buffered_telemetry_copies_prefix_witness :
  power_manager_get_buffered_telemetry (replicate 3 9) 3
    (boot rtc_sample hw_timer_wake)
  = Returned (3, [1; 2; 3]) (boot rtc_sample hw_timer_wake).
Proof.
  apply (get_buffered_telemetry_copies_prefix (replicate 3 9) 3
           (boot rtc_sample hw_timer_wake));
    first [ reflexivity | vm_compute; lia | vm_compute; intuition discriminate ].
Defined.

(** X2. An append never writes the last byte of the storage: whatever the
    call returns, [telemetry_buffer[255]] is what it was, so at most 255
    bytes are ever staged. *)
Theorem buffer_telemetry_spares_last_byte (data : list Z) (len : Z) (s : state) :
  let buf := Rtc.telemetry_buffer (rtc_state s) in
  let idx := Rtc.buffer_index (rtc_state s) in
  0 <= idx -> 0 <= len ->
  length data = Z.to_nat len ->
  length buf = 256%nat ->
  let s' := final (power_manager_buffer_telemetry data len s) in
  Rtc.telemetry_buffer (rtc_state s') !! 255%nat = buf !! 255%nat /\
  Rtc.buffer_index (rtc_state s') <= Z.max idx 255.
Proof.
  intros buf idx Hidx Hlen Hdata Hbuf s'. subst s'.
  rewrite buffer_telemetry_run by done. fold buf idx.
  destruct (256 <=? idx + len) eqn:E; simpl.
  - split; [reflexivity|]. fold idx. lia.
  - apply Z.leb_gt in E. split; [|lia].
    rewrite lookup_app_r by (rewrite length_take; lia).
    rewrite lookup_app_r by (rewrite length_take; lia).
    rewrite lookup_drop. f_equal.
    rewrite length_take, Hdata. lia.
Qed.

Lemma buffer_telemetry_spares_last_byte_witness :
  Rtc.telemetry_buffer
    (rtc_state (final (power_manager_buffer_telemetry (replicate 255 170) 255
                         s_ready))) !! 255%nat = Some 0.
Proof.
  apply (proj1 (buffer_telemetry_spares_last_byte (replicate 255 170) 255
                  s_ready ltac:(vm_compute; discriminate)
                  ltac:(vm_compute; discriminate) eq_refl eq_refl)).
Defined.

Lemma accepted_fits (chunks : list (list Z)) (c : Z) :
  0 <= c < 256 -> c + Z.of_nat (length (accepted chunks c)) < 256.
Proof.
  revert c. induction chunks as [|d rest IH]; intros c Hc; simpl; [lia|].
  destruct (256 <=? c + Z.of_nat (length d)) eqn:E.
  - by apply IH.
  - apply Z.leb_gt in E. rewrite length_app.
    specialize (IH (c + Z.of_nat (length d))). lia.
Qed.

Lemma rtc_buffer_eq (r : Rtc.t) (i0 i j : Z) (b0 b1 b2 : list Z) :
  i = j -> b1 = b2 ->
  Rtc.set_buffer_index i
    (Rtc.set_telemetry_buffer b1
       (Rtc.set_buffer_index i0 (Rtc.set_telemetry_buffer b0 r)))
  = Rtc.set_buffer_index j (Rtc.set_telemetry_buffer b2 r).
Proof. by intros -> ->. Qed.

Lemma append_all_run (chunks : list (list Z)) (s : state) :
  let buf := Rtc.telemetry_buffer (rtc_state s) in
  let idx := Rtc.buffer_index (rtc_state s) in
  let acc := accepted chunks idx in
  0 <= idx < 256 ->
  length buf = 256%nat ->
  Forall (fun d => (length d <= 255)%nat) chunks ->
  append_all chunks s =
  Returned tt
    (with_rtc_state
       (fun r =>
          Rtc.set_buffer_index (idx + Z.of_nat (length acc))
            (Rtc.set_telemetry_buffer
               (take (Z.to_nat idx) buf ++ acc ++
                drop (Z.to_nat idx + length acc) buf) r)) s).
Proof.
  revert s. induction chunks as [|d rest IH]; intros s buf idx acc Hidx Hbuf Hd.
  - unfold append_all; simpl. unfold skip, mret, M_ret. f_equal.
    apply state_ext; proj; try reflexivity.
    subst acc; simpl. rewrite Nat.add_0_r, take_drop, Z.add_0_r.
    by destruct (rtc_state s).
  - apply Forall_cons in Hd as [Hd Hrest].
    unfold append_all in *. simpl for_each. rewrite bind_bind.
    unfold mbind at 1, M_bind at 1.
    rewrite buffer_telemetry_run by (fold idx buf; lia).
    fold buf idx. subst acc. simpl accepted.
    destruct (256 <=? idx + Z.of_nat (length d)) eqn:E.
    + rewrite bind_skip. by apply IH.
    + apply Z.leb_gt in E. rewrite bind_skip.
      rewrite IH; proj; [|lia| |done].
      2: { rewrite !length_app, length_take, length_drop. lia. }
      f_equal. apply state_ext; proj; try reflexivity.
      set (acc' := accepted rest (idx + Z.of_nat (length d))).
      apply rtc_buffer_eq.
      * rewrite length_app. lia.
      * rewrite Z2Nat.inj_add, Nat2Z.id by lia.
        set (k := Z.to_nat idx) in *.
        assert (Hk : (k + length d <= 255)%nat) by lia.
        assert (Hp : length (take k buf ++ d) = (k + length d)%nat).
        { rewrite length_app, length_take. lia. }
        rewrite (app_assoc (take k buf) d (drop _ buf)).
        rewrite take_app_length' by done.
        rewrite drop_app_ge by lia.
        rewrite Hp, drop_drop, length_app, <- !app_assoc.
        do 4 f_equal. lia.
Qed.

(** X3. The buffer is a first-in first-out staging area: after a clear, a
    caller that appends chunks of up to 255 bytes in order and then drains
    gets back exactly the accepted chunks, in order and nothing else; a
    chunk that would reach the capacity is dropped whole and does not
    prevent later, shorter chunks from being accepted. *)
Theorem cleared_buffer_drains_accepted (chunks : list (list Z)) (s : state) :
  Forall (fun d => (length d <= 255)%nat) chunks ->
  let acc := accepted chunks 0 in
  exists s',
    (power_manager_clear_buffer;; append_all chunks) s = Returned tt s' /\
    Rtc.buffer_index (rtc_state s') = Z.of_nat (length acc) /\
    power_manager_get_buffered_telemetry (replicate 255 0) 255 s'
    = Returned (Z.of_nat (length acc),
                acc ++ replicate (255 - length acc) 0) s'.
Proof.
  intros Hd acc.
  pose proof (accepted_fits chunks 0 ltac:(lia)) as Hfit. fold acc in Hfit.
  eexists. split.
  { unfold power_manager_clear_buffer.
    rewrite bind_bind, bind_modify_rtc, bind_modify_rtc.
    rewrite append_all_run; proj;
      [reflexivity|lia|by rewrite length_replicate|done]. }
  fold acc. proj. split; [lia|].
  unfold power_manager_get_buffered_telemetry. run.
  rewrite Z.add_0_l, Z.min_l, Nat2Z.id by lia.
  rewrite memcpy_prefix.
  - change (Z.to_nat 0) with 0%nat.
    rewrite !take_0, !app_nil_l, take_app_length, drop_replicate.
    reflexivity.
  - rewrite !length_app, length_drop, length_replicate. lia.
  - rewrite length_replicate. lia.
Qed.

Lemma cleared_buffer_drains_accepted_witness :
  exists s',
    (power_manager_clear_buffer;;
     append_all [replicate 200 1; replicate 60 2; replicate 50 3])
      (boot rtc_sample hw_timer_wake) = Returned tt s' /\
    Rtc.buffer_index (rtc_state s') = 250 /\
    power_manager_get_buffered_telemetry (replicate 255 0) 255 s'
    = Returned (250, replicate 200 1 ++ replicate 50 3 ++ replicate 5 0) s'.
Proof.
  apply (cleared_buffer_drains_accepted
           [replicate 200 1; replicate 60 2; replicate 50 3]
           (boot rtc_sample hw_timer_wake)).
  repeat constructor; vm_compute; lia.
Defined.

(** ** Sleeping and waking *)

Lemma init_run (user_config : option power_config_t) (s : state) :
  let cfg := default (config s) user_config in
  power_manager_init user_config s =
  Returned tt
    (with_initialized true
       (with_last_activity_time (millis_now (hw s))
          (traced (init_trace (wakeup_cause (hw s)) (rtc_state s) cfg)
             (with_rtc_state
                (fun r => init_record (wakeup_cause (hw s)) r)
                (with_config cfg s))))).
Proof.
  intros cfg.
  assert (Hcfg : forall k : unit -> M unit,
    (match user_config with
     | Some c => modify (with_config c)
     | None => skip
     end ≫= k) s = k tt (with_config cfg s)).
  { intros k. subst cfg. destruct user_config; simpl.
    - by rewrite bind_modify.
    - rewrite bind_skip. f_equal. by destruct s. }
  unfold power_manager_init, esp_sleep_get_wakeup_cause, configure_ulp_program,
    millis, init_trace, init_record.
  rewrite Hcfg. step.
  destruct (is_undefined (wakeup_cause (hw s))) eqn:Hc; cbn [negb].
  - repeat step. destruct (enable_ulp cfg); repeat step;
      unfold modify, mbind, M_bind, call, modify; f_equal;
      (apply state_ext; [| | | | |apply hw_ext]); proj; rewrite ?Hc;
      rewrite <- ?app_assoc; reflexivity.
  - rewrite bind_bind, bind_gets. proj.
    destruct (calculate_checksum (rtc_state s) =? Rtc.checksum (rtc_state s))
      eqn:Hk;
      repeat step; destruct (enable_ulp cfg); repeat step;
      unfold modify, mbind, M_bind, call, modify; f_equal;
      (apply state_ext; [| | | | |apply hw_ext]); proj; rewrite ?Hc, ?Hk;
      rewrite <- ?app_assoc; reflexivity.
Qed.

(** X4. What [init] does besides validating the record: it installs the
    caller's configuration when one is given and keeps the current one on
    [NULL], restarts the idle timer at the current time, marks the manager
    initialized, leaves the current mode alone, and configures the platform
    from the configuration now in force (wake pin, automatic light sleep,
    and the ULP program only when [enable_ulp] is set). *)
Theorem init_installs_config (user_config : option power_config_t) (s : state) :
  let cfg := default (config s) user_config in
  let s' := final (power_manager_init user_config s) in
  config s' = cfg /\
  last_activity_time s' = millis_now (hw s) /\
  initialized s' = true /\
  current_mode s' = current_mode s /\
  calls_of (power_manager_init user_config) s
  = init_trace (wakeup_cause (hw s)) (rtc_state s) cfg /\
  (ulp_process_macros_and_load (alert_pin cfg) ∈
     calls_of (power_manager_init user_config) s
   <-> enable_ulp cfg = true).
Proof.
  intros cfg s'. subst s'. unfold calls_of. rewrite init_run. fold cfg. proj.
  rewrite drop_app_length.
  repeat split; try reflexivity.
  - unfold init_trace. intros H.
    destruct (enable_ulp cfg); [done|]. simpl in H.
    repeat (apply elem_of_cons in H as [H|H];
            [repeat case_match; discriminate|]).
    by apply elem_of_nil in H.
  - intros H. unfold init_trace. rewrite H.
    apply elem_of_app. right. apply elem_of_app. left. by left.
Qed.

Lemma sumZ_app (l k : list Z) : sumZ (l ++ k) = sumZ l + sumZ k.
Proof. induction l as [|x l IH]; simpl; lia. Qed.

Lemma image_mutation_changes_checksum (r : Rtc.t) (i : nat) (b : Z) :
  Rtc.wf r -> (i < Rtc.CHECKSUM_OFFSET)%nat -> is_u8 b ->
  Rtc.bytes r !! i <> Some b ->
  checksum_of_image (<[i:=b]> (Rtc.bytes r)) <> calculate_checksum r.
Proof.
  intros Hwf Hi Hb Hne.
  pose proof (Rtc.wf_telemetry_buffer_len r Hwf) as Hlen.
  pose proof (payload_length r Hlen) as Hpl.
  pose proof (payload_bytes r Hwf) as Hpb.
  rewrite checksum_is_payload_sum by done.
  unfold checksum_of_image, Rtc.bytes.
  rewrite take_insert_lt by done.
  rewrite take_app_length' by done.
  destruct (lookup_lt_is_Some_2 (Rtc.payload r) i) as [old Hold]; [lia|].
  rewrite sum_bytes_sumZ, (sumZ_insert _ _ old) by done.
  replace (sumZ (Rtc.payload r) - old + b)
    with (sumZ (Rtc.payload r) + (b - old)) by lia.
  apply u32_shift_differs.
  assert (is_u8 old) as Ho.
  { eapply Forall_lookup_1; [apply Hpb | apply Hold]. }
  assert (old <> b).
  { intros ->. apply Hne. unfold Rtc.bytes.
    rewrite lookup_app_l by lia. done. }
  unfold is_u8 in *. lia.
Qed.

Lemma le32_inj (x y : Z) : is_u32 x -> is_u32 y -> Rtc.le32 x = Rtc.le32 y -> x = y.
Proof.
  unfold is_u32, Rtc.le32. intros Hx Hy H. injection H as H0 H1 H2 H3.
  change (2 ^ 8) with 256 in *. change (2 ^ 16) with 65536 in *.
  change (2 ^ 24) with 16777216 in *. change (2 ^ 32) with 4294967296 in *.
  Z.div_mod_to_equations. lia.
Qed.

(** The byte sum of a word is the word modulo 255. *)
Lemma le32_sum_mod (x : Z) :
  is_u32 x -> sumZ (Rtc.le32 x) mod 255 = x mod 255 /\ 0 <= sumZ (Rtc.le32 x) <= 1020.
Proof.
  unfold is_u32, Rtc.le32, sumZ. simpl. intros Hx.
  change (2 ^ 8) with 256 in *. change (2 ^ 16) with 65536 in *.
  change (2 ^ 24) with 16777216 in *. change (2 ^ 32) with 4294967296 in *.
  Z.div_mod_to_equations. lia.
Qed.

Lemma le32_sum_succ (x : Z) :
  is_u32 x -> sumZ (Rtc.le32 (u32 (x + 1))) <> sumZ (Rtc.le32 x).
Proof.
  intros Hx Heq.
  assert (Hx' : is_u32 (u32 (x + 1))) by (apply Z.mod_pos_bound; lia).
  destruct (le32_sum_mod x Hx) as [H1 B1].
  destruct (le32_sum_mod _ Hx') as [H2 B2].
  rewrite Heq, H1 in H2. unfold is_u32, u32 in *.
  change (2 ^ 32) with 4294967296 in *.
  destruct (Z.eq_dec x 4294967295) as [->|Hne].
  - vm_compute in Heq. discriminate.
  - rewrite (Z.mod_small (x + 1)) in H2 by lia.
    clear -H2. Z.div_mod_to_equations. lia.
Qed.

Lemma counted_wake_is_stale (r : Rtc.t) :
  Rtc.wf r -> committed r -> ~ committed (counted_wake r).
Proof.
  intros Hwf Hc. unfold committed, counted_wake in *.
  pose proof (Rtc.wf_telemetry_buffer_len r Hwf) as Hlen.
  change (Rtc.checksum (Rtc.set_wake_count _ r)) with (Rtc.checksum r).
  rewrite Hc. rewrite !checksum_is_payload_sum by done.
  intros Heq. symmetry in Heq. revert Heq.
  pose proof (sumZ_bytes_bound _ (payload_bytes r Hwf)) as Hb.
  rewrite (payload_length r Hlen) in Hb.
  unfold Rtc.payload in *. cbn [Rtc.current_mode Rtc.sleep_duration_ms
    Rtc.wake_count Rtc.last_active_time Rtc.battery_voltage
    Rtc.critical_alert_pending Rtc.telemetry_buffer Rtc.buffer_index
    Rtc.padding Rtc.set_wake_count] in *.
  rewrite !sumZ_app in *.
  pose proof (le32_sum_succ _ (Rtc.wf_wake_count r Hwf)) as Hne.
  destruct (le32_sum_mod _ (Rtc.wf_wake_count r Hwf)) as [_ B1].
  assert (Hx' : is_u32 (u32 (Rtc.wake_count r + 1)))
    by (apply Z.mod_pos_bound; lia).
  destruct (le32_sum_mod _ Hx') as [_ B2].
  set (a := sumZ (Rtc.le32 (Rtc.wake_count r))) in *.
  set (b := sumZ (Rtc.le32 (u32 (Rtc.wake_count r + 1)))) in *.
  match goal with
  | |- u32 ?x = u32 ?y -> False =>
      change (u32 x <> u32 y); replace x with (y + (b - a)) by lia
  end.
  apply u32_shift_differs. unfold Rtc.CHECKSUM_OFFSET in Hb. lia.
Qed.

Lemma init_record_after (user_config : option power_config_t) (s : state) :
  rtc_state (final (power_manager_init user_config s))
  = init_record (wakeup_cause (hw s)) (rtc_state s) /\
  wakeup_cause (hw (final (power_manager_init user_config s)))
  = wakeup_cause (hw s) /\
  current_mode (final (power_manager_init user_config s)) = current_mode s.
Proof. rewrite init_run. by proj. Qed.

(** X5. What was persisted survives the sleep: when [setMode] has suspended
    the processor in [DEEP_SLEEP] or [HIBERNATION] and the record is
    retained as it was, [init] after a wake-up (any cause but [UNDEFINED])
    accepts the record, counts the wake, and keeps the persisted mode, the
    staged telemetry with its cursor and the alert flag; the machine starts
    over in [ACTIVE]. *)
Theorem sleep_wake_round_trip (mode : power_mode_t) (s : state) (h' : hw_t)
    (user_config : option power_config_t) :
  mode = POWER_MODE_DEEP_SLEEP \/ mode = POWER_MODE_HIBERNATION ->
  current_mode s <> mode ->
  length (Rtc.telemetry_buffer (rtc_state s)) = 256%nat ->
  is_undefined (wakeup_cause h') = false ->
  let r' := rtc_state (final (power_manager_set_mode mode s)) in
  let s2 := final (power_manager_init user_config (boot r' h')) in
  rtc_state s2 = counted_wake r' /\
  Rtc.current_mode (rtc_state s2) = mode_code mode /\
  Rtc.wake_count (rtc_state s2) = u32 (Rtc.wake_count (rtc_state s) + 1) /\
  Rtc.telemetry_buffer (rtc_state s2) = Rtc.telemetry_buffer (rtc_state s) /\
  Rtc.buffer_index (rtc_state s2) = Rtc.buffer_index (rtc_state s) /\
  Rtc.critical_alert_pending (rtc_state s2)
  = Rtc.critical_alert_pending (rtc_state s) /\
  current_mode s2 = POWER_MODE_ACTIVE.
Proof.
  intros Hmode Hcur Hlen Hwake r' s2.
  destruct (init_record_after user_config (boot r' h')) as (Hr & _ & Hm).
  fold s2 in Hr, Hm. rewrite Hr, Hm. clear Hr Hm s2.
  unfold init_record. cbn [boot hw rtc_state current_mode]. rewrite Hwake.
  assert (Hr' : committed r' /\
    Rtc.current_mode r' = mode_code mode /\
    Rtc.wake_count r' = Rtc.wake_count (rtc_state s) /\
    Rtc.telemetry_buffer r' = Rtc.telemetry_buffer (rtc_state s) /\
    Rtc.buffer_index r' = Rtc.buffer_index (rtc_state s) /\
    Rtc.critical_alert_pending r' = Rtc.critical_alert_pending (rtc_state s)).
  { subst r'. destruct Hmode as [-> | ->].
    - rewrite set_mode_deep_sleep by done. proj.
      split; [|by repeat split].
      unfold persist_for_sleep. by apply commit_committed.
    - rewrite set_mode_hibernation by done. proj.
      split; [|by repeat split].
      by apply commit_committed. }
  destruct Hr' as (Hc & H1 & H2 & H3 & H4 & H5).
  unfold committed in Hc. rewrite <- Hc, Z.eqb_refl.
  unfold counted_wake. cbn [Rtc.current_mode Rtc.wake_count
    Rtc.telemetry_buffer Rtc.buffer_index Rtc.critical_alert_pending
    Rtc.set_wake_count].
  rewrite H1, H2, H3, H4, H5. by repeat split.
Qed.

Lemma sleep_wake_round_trip_witness :
  Rtc.wake_count
    (rtc_state
       (final (power_manager_init None
                 (boot (rtc_state (final (power_manager_set_mode
                                            POWER_MODE_DEEP_SLEEP s_woken)))
                       hw_timer_wake))))
  = u32 (Rtc.wake_count (rtc_state s_woken) + 1).
Proof.
  apply (sleep_wake_round_trip POWER_MODE_DEEP_SLEEP s_woken hw_timer_wake
           None (or_introl eq_refl) ltac:(vm_compute; discriminate)
           eq_refl eq_refl).
Defined.

(** X6. Corruption during sleep is caught: if the retained record differs
    from a committed one in exactly one byte in front of the checksum
    field, [init] after a wake-up zeroes the record. *)
Theorem corrupted_byte_resets_record (r r' : Rtc.t) (i : nat) (b : Z)
    (h : hw_t) (user_config : option power_config_t) :
  Rtc.wf r -> committed r -> Rtc.wf r' ->
  (i < Rtc.CHECKSUM_OFFSET)%nat -> is_u8 b ->
  Rtc.bytes r !! i <> Some b ->
  Rtc.bytes r' = <[i:=b]> (Rtc.bytes r) ->
  is_undefined (wakeup_cause h) = false ->
  rtc_state (final (power_manager_init user_config (boot r' h))) = Rtc.zero.
Proof.
  intros Hwf Hc Hwf' Hi Hb Hne Himg Hwake.
  destruct (init_record_after user_config (boot r' h)) as (-> & _ & _).
  unfold init_record. cbn [boot hw rtc_state]. rewrite Hwake.
  pose proof (payload_length r (Rtc.wf_telemetry_buffer_len r Hwf)) as Hp.
  pose proof (payload_length r' (Rtc.wf_telemetry_buffer_len r' Hwf')) as Hp'.
  assert (Hsum : Rtc.checksum r' = Rtc.checksum r).
  { apply le32_inj; [apply Hwf'|apply Hwf|].
    apply (f_equal (drop Rtc.CHECKSUM_OFFSET)) in Himg.
    rewrite drop_insert_lt in Himg by done.
    unfold Rtc.bytes in Himg.
    by rewrite !drop_app_length' in Himg. }
  assert (Hcalc : calculate_checksum r' <> Rtc.checksum r').
  { rewrite Hsum, Hc. unfold calculate_checksum at 1. rewrite Himg.
    by apply image_mutation_changes_checksum. }
  apply Z.eqb_neq in Hcalc. by rewrite Hcalc.
Qed.

Lemma corrupted_byte_resets_record_witness :
  rtc_state (final (power_manager_init None (boot rtc_corrupted hw_timer_wake)))
  = Rtc.zero.
Proof.
  apply (corrupted_byte_resets_record rtc_sample rtc_corrupted 23 7
           hw_timer_wake None).
  - apply wfb_wf. reflexivity.
  - reflexivity.
  - apply wfb_wf. reflexivity.
  - unfold Rtc.CHECKSUM_OFFSET. lia.
  - unfold is_u8. lia.
  - vm_compute. discriminate.
  - reflexivity.
  - reflexivity.
Defined.

(** X7. Counting a wake leaves the stored checksum stale, whatever the
    count: after [init] has accepted a record, the record no longer matches
    its checksum until the next entry into [DEEP_SLEEP] or [HIBERNATION]
    stores a new one; a second [init] in the same boot therefore zeroes the
    record. *)
Theorem init_twice_resets_record (c1 c2 : option power_config_t) (s : state) :
  Rtc.wf (rtc_state s) -> committed (rtc_state s) ->
  is_undefined (wakeup_cause (hw s)) = false ->
  let s1 := final (power_manager_init c1 s) in
  rtc_state s1 = counted_wake (rtc_state s) /\
  ~ committed (rtc_state s1) /\
  rtc_state (final (power_manager_init c2 s1)) = Rtc.zero.
Proof.
  intros Hwf Hc Hwake s1.
  destruct (init_record_after c1 s) as (Hr & Hw & _). fold s1 in Hr, Hw.
  assert (Hr1 : rtc_state s1 = counted_wake (rtc_state s)).
  { rewrite Hr. unfold init_record. rewrite Hwake.
    unfold committed in Hc. by rewrite <- Hc, Z.eqb_refl. }
  pose proof (counted_wake_is_stale _ Hwf Hc) as Hstale.
  rewrite <- Hr1 in Hstale.
  split; [done|]. split; [done|].
  destruct (init_record_after c2 s1) as (-> & _ & _).
  unfold init_record. rewrite Hw, Hwake.
  unfold committed in Hstale.
  destruct (calculate_checksum (rtc_state s1) =? Rtc.checksum (rtc_state s1))
    eqn:E; [|done].
  apply Z.eqb_eq in E. by symmetry in E.
Qed.

Lemma init_twice_resets_record_witness :
  rtc_state (final (power_manager_init None s_woken)) = Rtc.zero.
Proof.
  apply (init_twice_resets_record None None (boot rtc_sample hw_timer_wake)
           (wfb_wf rtc_sample eq_refl) eq_refl eq_refl).
Defined.

(** ** Mode changes and what they leave alone *)

Lemma set_mode_modem_sleep (s : state) :
  current_mode s <> POWER_MODE_MODEM_SLEEP ->
  power_manager_set_mode POWER_MODE_MODEM_SLEEP s =
  Returned true
    (traced [transition_msg; esp_wifi_set_ps WIFI_PS_MIN_MODEM]
       (with_current_mode POWER_MODE_MODEM_SLEEP s)).
Proof.
  intros H. rewrite set_mode_other by done.
  rewrite enter_modem_sleep. f_equal. same_state.
Qed.

Lemma set_mode_post (mode : power_mode_t) (s : state) :
  match power_manager_set_mode mode s with
  | Returned ok s' =>
      ok = true /\ current_mode s' = mode /\
      rtc_state s' = rtc_state s /\ config s' = config s /\
      initialized s' = initialized s /\
      (mode = current_mode s \/
       mode_code mode <= mode_code POWER_MODE_LIGHT_SLEEP)
  | Suspended s' =>
      mode <> current_mode s /\
      mode_code POWER_MODE_DEEP_SLEEP <= mode_code mode /\
      current_mode s' = current_mode s /\
      Rtc.current_mode (rtc_state s') = mode_code mode /\
      config s' = config s /\
      last (trace (hw s')) = Some (esp_deep_sleep_start (rtc_state s'))
  end.
Proof.
  destruct (decide (mode = current_mode s)) as [->|Hne].
  - rewrite set_mode_current. repeat split; auto.
  - assert (Hne' : current_mode s <> mode) by congruence.
    destruct mode.
    + rewrite set_mode_active. proj. repeat split; auto. right. simpl. lia.
    + rewrite set_mode_modem_sleep by done. proj. repeat split; auto.
      right. simpl. lia.
    + rewrite set_mode_light_sleep by done. proj. repeat split; auto.
      right. simpl. lia.
    + rewrite set_mode_deep_sleep by done. cbv zeta.
      repeat split; auto; try (simpl; lia).
      rewrite app_comm_cons. apply last_traced.
    + rewrite set_mode_hibernation by done. cbv zeta.
      repeat split; auto; try (simpl; lia).
      rewrite app_comm_cons. apply last_traced.
Qed.

(** X8. [setMode] never returns [false].  When it returns, the current mode
    is the requested one and the RTC record, the configuration and the
    initialized flag are untouched; that happens exactly for a request of
    the current mode or of [ACTIVE], [MODEM_SLEEP] or [LIGHT_SLEEP].  Any
    other request of [DEEP_SLEEP] or [HIBERNATION] ends in the suspend call
    with the requested mode persisted, and the static [current_mode] is
    never updated on that path. *)
Theorem set_mode_returns_or_suspends (mode : power_mode_t) (s : state) :
  match power_manager_set_mode mode s with
  | Returned ok s' =>
      ok = true /\ current_mode s' = mode /\
      rtc_state s' = rtc_state s /\ config s' = config s /\
      initialized s' = initialized s /\
      (mode = current_mode s \/
       mode_code mode <= mode_code POWER_MODE_LIGHT_SLEEP)
  | Suspended s' =>
      mode <> current_mode s /\
      mode_code POWER_MODE_DEEP_SLEEP <= mode_code mode /\
      current_mode s' = current_mode s /\
      Rtc.current_mode (rtc_state s') = mode_code mode /\
      config s' = config s /\
      last (trace (hw s')) = Some (esp_deep_sleep_start (rtc_state s'))
  end.
Proof. apply set_mode_post. Qed.

Lemma process_run (s : state) :
  initialized s = true ->
  exists tr,
    power_manager_process s =
    match first_match
            (policy_rules (config s) (current_mode s)
               (adc_to_voltage (adc_raw (hw s)))
               (u32 (millis_now (hw s) - last_activity_time s))) with
    | Some target => (power_manager_set_mode target;; skip) (traced tr s)
    | None => Returned tt (traced tr s)
    end.
Proof.
  intros Hinit.
  set (idle_time := u32 (millis_now (hw s) - last_activity_time s)).
  set (battery_v := adc_to_voltage (adc_raw (hw s))).
  unfold power_manager_process, millis. step. rewrite Hinit.
  cbn [negb]. repeat step. fold idle_time battery_v.
  unfold policy_rules, first_match.
  destruct (F32.ltb battery_v (battery_critical_v (config s))) eqn:Hcrit.
  { step. rewrite traced_app. eexists. reflexivity. }
  exists (battery_trace (hw s)).
  destruct (F32.ltb battery_v (battery_low_v (config s))
            && (idle_time >? idle_timeout_ms (config s) / 2)) eqn:Hlow;
    [reflexivity|].
  step.
  destruct (current_mode s); cbn [mode_eqb mode_code Z.eqb Pos.eqb];
    simpl; try reflexivity.
  destruct (idle_time >? deep_sleep_timeout_ms (config s)); [reflexivity|].
  destruct (idle_time >? idle_timeout_ms (config s)); [reflexivity|].
  destruct (idle_time >? idle_timeout_ms (config s) / 2); reflexivity.
Qed.

(** X9. [process] never writes the RTC record and returns: when it returns,
    the record, the configuration and the initialized flag are what they
    were; the record changes only on the paths that end in the suspend
    call, where the persisted mode is [DEEP_SLEEP] or [HIBERNATION]. *)
Theorem process_returns_with_record_untouched (s : state) :
  match power_manager_process s with
  | Returned _ s' =>
      rtc_state s' = rtc_state s /\ config s' = config s /\
      initialized s' = initialized s
  | Suspended s' =>
      initialized s = true /\
      (Rtc.current_mode (rtc_state s') = mode_code POWER_MODE_DEEP_SLEEP \/
       Rtc.current_mode (rtc_state s') = mode_code POWER_MODE_HIBERNATION) /\
      last (trace (hw s')) = Some (esp_deep_sleep_start (rtc_state s'))
  end.
Proof.
  destruct (initialized s) eqn:Hinit.
  - destruct (process_run s Hinit) as [tr ->].
    destruct (first_match _) as [target|]; [|by proj].
    unfold mbind, M_bind.
    pose proof (set_mode_post target (traced tr s)) as Hpost.
    destruct (power_manager_set_mode target (traced tr s)) as [ok s'|s'].
    + destruct Hpost as (_ & _ & Hr & Hc & Hi & _).
      unfold skip, mret, M_ret. by rewrite Hr, Hc, Hi.
    + destruct Hpost as (_ & Hm & _ & Hr & _ & Hl).
      split; [done|]. split; [|done]. rewrite Hr.
      destruct target; simpl in *; auto; lia.
  - unfold power_manager_process. step. rewrite Hinit. by simpl.
Qed.

Lemma activity_run (s : state) :
  exists tr,
    power_manager_activity s =
    Returned tt
      (traced tr (with_current_mode POWER_MODE_ACTIVE
                    (with_last_activity_time (millis_now (hw s)) s))).
Proof.
  unfold power_manager_activity, millis. repeat step.
  destruct (mode_eqb (current_mode s) POWER_MODE_ACTIVE) eqn:E; cbn [negb].
  - apply mode_eqb_eq in E. exists []. rewrite traced_nil.
    unfold skip, mret, M_ret. f_equal.
    apply state_ext; proj; auto.
  - unfold mbind, M_bind. rewrite set_mode_active. eexists. reflexivity.
Qed.

(** X10. The idle time is counted from the last [activity] and is right
    across the wrap of the millisecond clock: [process] called [elapsed]
    milliseconds (less than 2^32) after [activity] applies the rule table
    to mode [ACTIVE] and idle time [elapsed]. *)
Theorem idle_time_counts_from_activity (s : state) (elapsed : Z) :
  initialized s = true ->
  is_u32 (millis_now (hw s)) ->
  0 <= elapsed < 2 ^ 32 ->
  let s1 := with_hw (advance_clock elapsed)
              (final (power_manager_activity s)) in
  exists tr,
    power_manager_process s1 =
    match first_match
            (policy_rules (config s) POWER_MODE_ACTIVE
               (adc_to_voltage (adc_raw (hw s))) elapsed) with
    | Some target => (power_manager_set_mode target;; skip) (traced tr s1)
    | None => Returned tt (traced tr s1)
    end.
Proof.
  intros Hinit Hnow Hel s1.
  destruct (activity_run s) as [tr0 Hact].
  assert (Hs1 : config s1 = config s /\ current_mode s1 = POWER_MODE_ACTIVE /\
                adc_raw (hw s1) = adc_raw (hw s) /\ initialized s1 = true /\
                u32 (millis_now (hw s1) - last_activity_time s1) = elapsed).
  { subst s1. rewrite Hact. proj. repeat split; auto.
    unfold u32, is_u32 in *. rewrite Zminus_mod_idemp_l.
    replace (millis_now (hw s) + elapsed - millis_now (hw s)) with elapsed
      by lia.
    by apply Z.mod_small. }
  destruct Hs1 as (Hc & Hm & Ha & Hi & Hidle).
  destruct (process_run s1 Hi) as [tr Hrun].
  rewrite Hc, Hm, Ha, Hidle in Hrun. by exists tr.
Qed.

Lemma idle_time_counts_from_activity_witness :
  exists tr,
    power_manager_process
      (with_hw (advance_clock 4294967000)
         (final (power_manager_activity s_idle_35s))) =
    match first_match
            (policy_rules (config s_idle_35s) POWER_MODE_ACTIVE
               (adc_to_voltage (adc_raw (hw s_idle_35s))) 4294967000) with
    | Some target =>
        (power_manager_set_mode target;; skip)
          (traced tr (with_hw (advance_clock 4294967000)
                        (final (power_manager_activity s_idle_35s))))
    | None =>
        Returned tt
          (traced tr (with_hw (advance_clock 4294967000)
                        (final (power_manager_activity s_idle_35s))))
    end.
Proof.
  apply (idle_time_counts_from_activity s_idle_35s 4294967000 eq_refl);
    vm_compute; intuition discriminate.
Defined.

(** ** Battery readings *)

(** X11. With the default thresholds, over the whole range of the 12-bit
    converter and its error value [-1]: a reading is below the critical
    threshold exactly up to ADC 1861 and below the low threshold exactly up
    to ADC 2047 (a failed conversion counts as a critical battery), and the
    computed voltage never decreases as the reading grows. *)
Theorem battery_thresholds_in_adc_counts (raw : Z) :
  -1 <= raw <= 4095 ->
  F32.ltb (adc_to_voltage raw) (battery_critical_v default_config)
  = (raw <=? 1861) /\
  F32.ltb (adc_to_voltage raw) (battery_low_v default_config)
  = (raw <=? 2047) /\
  SFleb (adc_to_voltage raw) (adc_to_voltage (raw + 1)) = true.
Proof.
  intros Hraw.
  assert (Hall : Forall (fun r => adc_reading_ok r = true) (seqZ (-1) 4097)).
  { apply Forall_forall. intros r Hr. apply list_elem_of_In in Hr.
    revert r Hr. apply forallb_forall. vm_compute. reflexivity. }
  rewrite Forall_seqZ in Hall. specialize (Hall raw ltac:(lia)).
  unfold adc_reading_ok in Hall. rewrite !andb_true_iff in Hall.
  destruct Hall as [[H1 H2] H3].
  apply Bool.eqb_prop in H1, H2. auto.
Qed.

Lemma battery_thresholds_in_adc_counts_witness :
  F32.ltb (adc_to_voltage (-1)) (battery_critical_v default_config) = true.
Proof.
  apply (proj1 (battery_thresholds_in_adc_counts (-1) ltac:(lia))).
Defined.

(** ** Wake sources and pins *)

Lemma filter_none {A : Type} (f : A -> bool) (l : list A) :
  Forall (fun x => f x = false) l -> List.filter f l = [].
Proof. induction 1 as [|x l Hx _ IH]; simpl; [done|]. by rewrite Hx. Qed.

Lemma elem_of_concat {A : Type} (x : A) (ls : list (list A)) :
  x ∈ concat ls <-> exists l, x ∈ l /\ l ∈ ls.
Proof.
  rewrite list_elem_of_In, in_concat. split.
  - intros (l & Hl & Hx). exists l. by rewrite !list_elem_of_In.
  - intros (l & Hx & Hl). exists l. by rewrite <- !list_elem_of_In.
Qed.

Lemma isolate_trace_only_isolates (cfg : power_config_t) (h : hw_t) (e : hw_call) :
  e ∈ isolate_trace cfg h <->
  exists i, e = rtc_gpio_isolate i /\ 0 <= i < GPIO_NUM_MAX h /\
            i <> wake_pin cfg /\ rtc_gpio_is_valid_gpio h i = true.
Proof.
  unfold isolate_trace. rewrite elem_of_concat. split.
  - intros (l & He & Hl). apply list_elem_of_fmap in Hl as (i & -> & Hi).
    apply elem_of_seqZ in Hi.
    destruct (i =? wake_pin cfg) eqn:E1; simpl in He;
      [by apply elem_of_nil in He|].
    destruct (rtc_gpio_is_valid_gpio h i) eqn:E2;
      [|by apply elem_of_nil in He].
    apply list_elem_of_singleton in He. exists i.
    apply Z.eqb_neq in E1. repeat split; auto; lia.
  - intros (i & -> & Hi & Hw & Hv).
    exists [rtc_gpio_isolate i]. split; [by left|].
    apply list_elem_of_fmap. exists i. split.
    + apply Z.eqb_neq in Hw. by rewrite Hw, Hv.
    + apply elem_of_seqZ. lia.
Qed.

Lemma calls_of_set_mode (mode : power_mode_t) (s : state) :
  current_mode s <> mode ->
  calls_of (power_manager_set_mode mode) s =
  transition_msg ::
  match mode with
  | POWER_MODE_ACTIVE =>
      uart_driver_install 0 256 ::
      (if enable_wifi_modem_sleep (config s)
       then [esp_wifi_set_ps WIFI_PS_NONE] else [])
  | POWER_MODE_MODEM_SLEEP => [esp_wifi_set_ps WIFI_PS_MIN_MODEM]
  | POWER_MODE_LIGHT_SLEEP =>
      light_sleep_prelude (config s) ++
      [esp_light_sleep_start (rtc_state s); uart_driver_install 0 256]
  | POWER_MODE_DEEP_SLEEP =>
      deep_sleep_trace (config s) (hw s) ++
      [esp_deep_sleep_start
         (persist_for_sleep POWER_MODE_DEEP_SLEEP (millis_now (hw s))
            (adc_to_voltage (adc_raw (hw s))) (rtc_state s))]
  | POWER_MODE_HIBERNATION =>
      hibernation_trace (config s) (hw s) ++
      [esp_deep_sleep_start
         (commit (Rtc.set_current_mode (mode_code POWER_MODE_HIBERNATION)
                    (rtc_state s)))]
  end.
Proof.
  intros Hcur. unfold calls_of. destruct mode.
  - rewrite set_mode_active, mode_eqb_neq by congruence. proj.
    by rewrite drop_app_length.
  - rewrite set_mode_modem_sleep by done. proj. by rewrite drop_app_length.
  - rewrite set_mode_light_sleep by done. proj.
    rewrite <- (app_assoc (trace (hw s))), drop_app_length.
    rewrite <- app_comm_cons, <- app_assoc. reflexivity.
  - rewrite set_mode_deep_sleep by done. proj. by rewrite drop_app_length.
  - rewrite set_mode_hibernation by done. proj. by rewrite drop_app_length.
Qed.

(** X12. The wake sources a transition programs depend on the target mode
    only through the configuration: none for [ACTIVE] and [MODEM_SLEEP];
    timer at the telemetry interval and the wake pin for [LIGHT_SLEEP];
    timer at the heartbeat interval, the wake pin, and the ULP only when
    enabled, for [DEEP_SLEEP]; for [HIBERNATION] all sources cleared, then
    the timer at ten heartbeats and the wake pin, never the ULP. *)
Theorem wake_sources_by_mode (mode : power_mode_t) (s : state) :
  current_mode s <> mode ->
  List.filter is_wake_source_call (calls_of (power_manager_set_mode mode) s)
  = wake_source_calls (config s) mode.
Proof.
  intros Hcur. rewrite calls_of_set_mode by done.
  destruct mode; simpl.
  - by destruct (enable_wifi_modem_sleep (config s)).
  - reflexivity.
  - reflexivity.
  - by destruct (enable_ulp (config s)).
  - rewrite List.filter_app, filter_none; [reflexivity|].
    apply Forall_forall. intros e He.
    apply elem_of_app in He as [He|He].
    + apply isolate_trace_only_isolates in He as (i & -> & _). reflexivity.
    + repeat (apply elem_of_cons in He as [->|He]; [reflexivity|]).
      by apply elem_of_nil in He.
Qed.

Lemma wake_sources_by_mode_witness :
  List.filter is_wake_source_call
    (calls_of (power_manager_set_mode POWER_MODE_HIBERNATION) s_woken)
  = [esp_sleep_disable_wakeup_source ESP_SLEEP_WAKEUP_ALL;
     esp_sleep_enable_timer_wakeup 3000000000;
     esp_sleep_enable_ext0_wakeup 33 0].
Proof.
  apply (wake_sources_by_mode POWER_MODE_HIBERNATION s_woken).
  vm_compute. discriminate.
Defined.

(** X13. The hibernation timer is computed in 32-bit arithmetic: it is ten
    heartbeat intervals (in microseconds) exactly when the heartbeat
    interval is at most 429496 ms; from 429497 ms on the product wraps and
    a shorter duration is programmed. *)
Theorem hibernation_timer_ten_heartbeats (s : state) :
  current_mode s <> POWER_MODE_HIBERNATION ->
  is_u32 (heartbeat_interval_ms (config s)) ->
  (esp_sleep_enable_timer_wakeup (heartbeat_interval_ms (config s) * 1000 * 10)
     ∈ calls_of (power_manager_set_mode POWER_MODE_HIBERNATION) s
   <-> heartbeat_interval_ms (config s) <= 429496).
Proof.
  intros Hcur Hhb. rewrite calls_of_set_mode by done.
  set (hb := heartbeat_interval_ms (config s)) in *.
  assert (Hv : u32 (u32 (hb * 1000) * 10) = u32 (hb * 1000 * 10)).
  { unfold u32. by rewrite Zmult_mod_idemp_l. }
  assert (Hiff : u32 (hb * 1000 * 10) = hb * 1000 * 10 <-> hb <= 429496).
  { unfold u32, is_u32 in *. change (2 ^ 32) with 4294967296 in *. split.
    - intros H. pose proof (Z.mod_pos_bound (hb * 1000 * 10) 4294967296).
      lia.
    - intros H. apply Z.mod_small. lia. }
  rewrite <- Hiff, <- Hv. unfold hibernation_trace. fold hb. split.
  - intros H. apply elem_of_cons in H as [H|H]; [discriminate|].
    apply elem_of_app in H as [H|H].
    + apply elem_of_app in H as [H|H].
      * repeat (apply elem_of_cons in H as [H|H];
                [try discriminate; congruence|]).
        by apply elem_of_nil in H.
      * apply elem_of_app in H as [H|H].
        -- apply isolate_trace_only_isolates in H as (i & H & _).
           discriminate.
        -- repeat (apply elem_of_cons in H as [H|H]; [discriminate|]).
           by apply elem_of_nil in H.
    + apply list_elem_of_singleton in H. discriminate.
  - intros ->. right. apply elem_of_app. left. right. by left.
Qed.

Lemma hibernation_timer_ten_heartbeats_witness :
  esp_sleep_enable_timer_wakeup 3000000000
    ∈ calls_of (power_manager_set_mode POWER_MODE_HIBERNATION) s_woken.
Proof.
  apply (hibernation_timer_ten_heartbeats s_woken
           ltac:(vm_compute; discriminate)
           ltac:(vm_compute; intuition discriminate)).
  vm_compute. discriminate.
Defined.

(** X14. Entering [HIBERNATION] isolates exactly the pins below
    [GPIO_NUM_MAX] that are valid low-power pins and are not the wake pin;
    the wake pin itself is never isolated. *)
Theorem hibernation_isolates_all_but_wake_pin (s : state) (i : Z) :
  current_mode s <> POWER_MODE_HIBERNATION ->
  (rtc_gpio_isolate i
     ∈ calls_of (power_manager_set_mode POWER_MODE_HIBERNATION) s
   <-> 0 <= i < GPIO_NUM_MAX (hw s) /\ i <> wake_pin (config s) /\
       rtc_gpio_is_valid_gpio (hw s) i = true).
Proof.
  intros Hcur. rewrite calls_of_set_mode by done.
  unfold hibernation_trace. split.
  - intros H. apply elem_of_cons in H as [H|H]; [discriminate|].
    apply elem_of_app in H as [H|H].
    + apply elem_of_app in H as [H|H].
      * repeat (apply elem_of_cons in H as [H|H]; [discriminate|]).
        by apply elem_of_nil in H.
      * apply elem_of_app in H as [H|H].
        -- apply isolate_trace_only_isolates in H as (j & Hj & H).
           by injection Hj as ->.
        -- repeat (apply elem_of_cons in H as [H|H]; [discriminate|]).
           by apply elem_of_nil in H.
    + apply list_elem_of_singleton in H. discriminate.
  - intros H. right. apply elem_of_app. left. apply elem_of_app. right.
    apply elem_of_app. left. apply isolate_trace_only_isolates. by exists i.
Qed.

Lemma hibernation_isolates_all_but_wake_pin_witness :
  rtc_gpio_isolate 33
    ∈ calls_of (power_manager_set_mode POWER_MODE_HIBERNATION) s_woken
  <-> 0 <= 33 < 40 /\ 33 <> 33 /\ true = true.
Proof.
  apply (hibernation_isolates_all_but_wake_pin s_woken 33).
  vm_compute. discriminate.
Defined.

(** X15. Entering [DEEP_SLEEP] stores the mode, the time of entry and the
    bit pattern of the freshly sampled battery voltage, then the checksum
    of the record so updated; the wake count, the sleep duration, the alert
    flag and the staged telemetry with its cursor are carried over
    unchanged, and the static [current_mode] is not updated. *)
Theorem deep_sleep_persists_snapshot (s : state) :
  current_mode s <> POWER_MODE_DEEP_SLEEP ->
  let r := rtc_state s in
  let s' := final (power_manager_set_mode POWER_MODE_DEEP_SLEEP s) in
  let r' := rtc_state s' in
  (exists s2, power_manager_set_mode POWER_MODE_DEEP_SLEEP s = Suspended s2) /\
  Rtc.current_mode r' = mode_code POWER_MODE_DEEP_SLEEP /\
  Rtc.last_active_time r' = millis_now (hw s) /\
  Rtc.battery_voltage r' = F32.bits (adc_to_voltage (adc_raw (hw s))) /\
  Rtc.checksum r' = calculate_checksum (Rtc.set_checksum (Rtc.checksum r) r') /\
  Rtc.wake_count r' = Rtc.wake_count r /\
  Rtc.sleep_duration_ms r' = Rtc.sleep_duration_ms r /\
  Rtc.critical_alert_pending r' = Rtc.critical_alert_pending r /\
  Rtc.telemetry_buffer r' = Rtc.telemetry_buffer r /\
  Rtc.buffer_index r' = Rtc.buffer_index r /\
  current_mode s' = current_mode s.
Proof.
  intros Hcur r s' r'. subst r' s'.
  rewrite set_mode_deep_sleep by done. cbv zeta.
  split; [eexists; reflexivity|]. proj. repeat split.
Qed.

Lemma deep_sleep_persists_snapshot_witness :
  Rtc.last_active_time
    (rtc_state (final (power_manager_set_mode POWER_MODE_DEEP_SLEEP
                         s_idle_critical))) = 361000.
Proof.
  apply (deep_sleep_persists_snapshot s_idle_critical).
  vm_compute. discriminate.
Defined.

(** ** Diagnostics *)

(** X16. The current estimate falls strictly with the depth of the mode, and
    asking for it changes nothing. *)
Theorem estimate_current_falls_with_depth (s1 s2 : state) :
  mode_code (current_mode s1) < mode_code (current_mode s2) ->
  exists a b,
    power_manager_estimate_current_ma s1 = Returned a s1 /\
    power_manager_estimate_current_ma s2 = Returned b s2 /\
    F32.ltb b a = true.
Proof.
  intros H. unfold power_manager_estimate_current_ma.
  rewrite !bind_gets. unfold mret, M_ret.
  do 2 eexists. split; [reflexivity|]. split; [reflexivity|].
  destruct (current_mode s1), (current_mode s2); simpl in H; try lia;
    vm_compute; reflexivity.
Qed.

Lemma estimate_current_falls_with_depth_witness :
  exists a b,
    power_manager_estimate_current_ma s_ready = Returned a s_ready /\
    power_manager_estimate_current_ma
      (with_current_mode POWER_MODE_LIGHT_SLEEP s_ready)
    = Returned b (with_current_mode POWER_MODE_LIGHT_SLEEP s_ready) /\
    F32.ltb b a = true.
Proof.
  apply (estimate_current_falls_with_depth s_ready
           (with_current_mode POWER_MODE_LIGHT_SLEEP s_ready)).
  vm_compute. reflexivity.
Defined.

(** X17. [getStats] is a read: it returns the stored wake count, the current
    time and mode for the pointers that are given, samples the battery only
    when the voltage is asked for, and changes nothing in the machine but
    the trace of those ADC calls. *)
Theorem get_stats_only_reads (wake_count battery_v uptime_ms mode : bool)
    (s : state) :
  power_manager_get_stats wake_count battery_v uptime_ms mode s =
  Returned
    {| stats_wake_count :=
         if wake_count then Some (Rtc.wake_count (rtc_state s)) else None;
       stats_battery_v :=
         if battery_v then Some (adc_to_voltage (adc_raw (hw s))) else None;
       stats_uptime_ms := if uptime_ms then Some (millis_now (hw s)) else None;
       stats_mode := if mode then Some (current_mode s) else None |}
    (traced (if battery_v then battery_trace (hw s) else []) s).
Proof.
  unfold power_manager_get_stats, millis.
  destruct wake_count, battery_v, uptime_ms, mode; repeat step;
    unfold mret, M_ret; rewrite ?traced_nil; reflexivity.
Qed.

(** ** What mode changes never touch *)

Lemma same_payload_fields_refl (r : Rtc.t) : same_payload_fields r r.
Proof. by repeat split. Qed.

Lemma set_mode_keeps_payload_fields (mode : power_mode_t) (s : state) :
  same_payload_fields (rtc_state s)
    (rtc_state (final (power_manager_set_mode mode s))) /\
  Rtc.critical_alert_pending
    (rtc_state (final (power_manager_set_mode mode s)))
  = Rtc.critical_alert_pending (rtc_state s).
Proof.
  destruct (decide (mode = current_mode s)) as [->|Hne].
  - rewrite set_mode_current. split; [apply same_payload_fields_refl|done].
  - assert (Hne' : current_mode s <> mode) by congruence.
    destruct mode.
    + rewrite set_mode_active. by repeat split.
    + rewrite set_mode_modem_sleep by done. by repeat split.
    + rewrite set_mode_light_sleep by done. by repeat split.
    + rewrite set_mode_deep_sleep by done. by repeat split.
    + rewrite set_mode_hibernation by done. by repeat split.
Qed.

(** X18. Staged telemetry is never lost to a mode change: [setMode],
    [activity], [setAlert] and [process] leave the telemetry buffer, its
    cursor, the wake count, the sleep duration and the padding bytes of the
    RTC record as they were, and all but [setAlert] leave the alert flag as
    well, whether they return or end in the suspend call. *)
Theorem mode_changes_keep_staged_telemetry (s : state) :
  (forall mode,
      same_payload_fields (rtc_state s)
        (rtc_state (final (power_manager_set_mode mode s))) /\
      Rtc.critical_alert_pending
        (rtc_state (final (power_manager_set_mode mode s)))
      = Rtc.critical_alert_pending (rtc_state s)) /\
  (same_payload_fields (rtc_state s)
     (rtc_state (final (power_manager_activity s))) /\
   Rtc.critical_alert_pending (rtc_state (final (power_manager_activity s)))
   = Rtc.critical_alert_pending (rtc_state s)) /\
  (forall alert,
      same_payload_fields (rtc_state s)
        (rtc_state (final (power_manager_set_alert alert s)))) /\
  (same_payload_fields (rtc_state s)
     (rtc_state (final (power_manager_process s))) /\
   Rtc.critical_alert_pending (rtc_state (final (power_manager_process s)))
   = Rtc.critical_alert_pending (rtc_state s)).
Proof.
  split; [intros mode; apply set_mode_keeps_payload_fields|].
  split; [|split].
  - destruct (activity_run s) as [tr ->]. by repeat split.
  - intros alert. unfold power_manager_set_alert. repeat step.
    destruct (alert && _).
    + unfold mbind, M_bind. rewrite set_mode_active. by repeat split.
    + by repeat split.
  - destruct (initialized s) eqn:Hinit.
    + destruct (process_run s Hinit) as [tr ->].
      destruct (first_match _) as [target|]; [|by repeat split].
      unfold mbind, M_bind.
      pose proof (set_mode_keeps_payload_fields target (traced tr s)) as H.
      by destruct (power_manager_set_mode target (traced tr s)).
    + unfold power_manager_process. step. rewrite Hinit. by repeat split.
Qed.
